(** * Intent classification, entity extraction and the dialogue router

    A shallow embedding of the chat backend, one module per source file:
    - [JsString]                 : the string and RegExp primitives used
    - [EntityExtractor]          : domain/services/EntityExtractor.ts
    - [ConversationState]        : domain/entities/ConversationState.ts
    - [ConversationStateManager] : application/services/ConversationStateManager.ts
    - [IntentClassifier]         : domain/services/IntentClassifier.ts
    - [ChatController]           : adapters/controllers/chatController.ts

    Conventions of the model.
    - A JavaScript string is a [string] of 8-bit code units: the model covers
      messages whose UTF-16 code units lie below 256 (ASCII and Latin-1).  On
      that range [toLowerCase], [includes] and the three regular expressions
      follow ECMAScript exactly.
    - [confidence] is a rational; the source only writes and compares the
      decimal literals 0.3, 0.4, 0.5, 0.7, 0.75, 0.85, 0.9 and 1.0, whose
      order as doubles is their order as rationals.
    - [turnCount] is a natural number (the source counts up from 0 by 1).
    - The in-memory session table is a finite map from session id to state.
      The source keeps it in a plain object: a read under a key that names a
      member of Object.prototype finds that member where nothing is stored.
      The finite map is the table for every other key, and a property that
      reads a session not yet stored is stated for the keys of
      [PlainObject.plainKey].
    - The collaborators of the handler (product, order and user-status
      lookups, the language model, the random choices, the id generator) are
      answers given by an environment; every call is logged.
    - [ChatController.chat] is one request served from its first read of the
      table to its answer, and [ChatController.runTurns] serves requests one
      after the other.  The handler suspends at each collaborator call; a
      property of a turn is stated on what the turn reads when it starts and
      on what it writes last, or names the serial run it is about. *)

From Stdlib Require Import String Ascii List NArith ZArith QArith Bool Lia.
From stdpp Require Import gmap strings.

Open Scope string_scope.
Import ListNotations.

(** ** JavaScript string primitives on the modelled range *)

Module JsString.

Definition code (c : ascii) : N := N_of_ascii c.

Definition inRange (lo hi n : N) : bool := ((lo <=? n) && (n <=? hi))%N.

(** String.prototype.toLowerCase, one code unit at a time: A-Z, and the
    Latin-1 capitals U+00C0..U+00DE except the multiplication sign U+00D7. *)
Definition lowerChar (c : ascii) : ascii :=
  let n := code c in
  if inRange 65 90 n then ascii_of_N (n + 32)
  else if inRange 192 222 n && negb (n =? 215)%N then ascii_of_N (n + 32)
  else c.

Fixpoint toLowerCase (s : string) : string :=
  match s with
  | EmptyString => EmptyString
  | String c r => String (lowerChar c) (toLowerCase r)
  end.

(** String.prototype.includes *)
Fixpoint includes (s sub : string) : bool :=
  String.prefix sub s ||
  match s with
  | EmptyString => false
  | String _ r => includes r sub
  end.

(** The Canonicalize operation of a case-insensitive, non-unicode RegExp:
    the upper-case code unit, as a number because two Latin-1 letters have
    their capital outside Latin-1. *)
Definition canonicalize (c : ascii) : N :=
  let n := code c in
  if inRange 97 122 n then (n - 32)%N
  else if inRange 224 254 n && negb (n =? 247)%N then (n - 32)%N
  else if (n =? 255)%N then 376%N
  else if (n =? 181)%N then 924%N
  else n.

(** \s, \d, \w and the class [#:] *)
Definition isSpace (c : ascii) : bool :=
  let n := code c in inRange 9 13 n || (n =? 32)%N || (n =? 160)%N.

Definition isDigit (c : ascii) : bool := inRange 48 57 (code c).

Definition isWordChar (c : ascii) : bool :=
  let n := code c in
  inRange 48 57 n || inRange 65 90 n || inRange 97 122 n || (n =? 95)%N.

Definition isHashOrColon (c : ascii) : bool :=
  let n := code c in (n =? 35)%N || (n =? 58)%N.

Fixpoint skipWhile (p : ascii -> bool) (s : string) : string :=
  match s with
  | EmptyString => EmptyString
  | String c r => if p c then skipWhile p r else s
  end.

Fixpoint takeWhile (p : ascii -> bool) (s : string) : string :=
  match s with
  | EmptyString => EmptyString
  | String c r => if p c then String c (takeWhile p r) else EmptyString
  end.

(** A literal of the pattern matched at the head of [s] under the [i] flag.
    Returns the last code unit consumed (or [prev] for the empty literal)
    and the rest of the text. *)
Fixpoint matchLiteral (pat s : string) (prev : option ascii)
  : option (option ascii * string) :=
  match pat with
  | EmptyString => Some (prev, s)
  | String p pat' =>
      match s with
      | EmptyString => None
      | String c r =>
          if (canonicalize c =? canonicalize p)%N
          then matchLiteral pat' r (Some c)
          else None
      end
  end.

(** The tail  \s*[#:]?\s*(\d+)  shared by the two id patterns; the result is
    capture group 1.  The three classes are disjoint, so the greedy reading
    is the only one that can succeed. *)
Definition matchIdTail (s : string) : option string :=
  let s1 := skipWhile isSpace s in
  let s2 := match s1 with
            | String c r => if isHashOrColon c then r else s1
            | EmptyString => s1
            end in
  let s3 := skipWhile isSpace s2 in
  match takeWhile isDigit s3 with
  | EmptyString => None
  | digits => Some digits
  end.

(** The alternation (?:w1|w2|...) followed by the id tail, tried at the head
    of [s] in the order of the alternatives. *)
Fixpoint matchIdAt (triggers : list string) (s : string) : option string :=
  match triggers with
  | [] => None
  | w :: ws =>
      match matchLiteral w s None with
      | Some (_, rest) =>
          match matchIdTail rest with
          | Some d => Some d
          | None => matchIdAt ws s
          end
      | None => matchIdAt ws s
      end
  end.

(** text.match(/(?:w1|...)\s*[#:]?\s*(\d+)/i)[1] : leftmost match. *)
Fixpoint matchId (triggers : list string) (s : string) : option string :=
  match matchIdAt triggers s with
  | Some d => Some d
  | None =>
      match s with
      | EmptyString => None
      | String _ r => matchId triggers r
      end
  end.

Definition isWordOpt (c : option ascii) : bool :=
  match c with Some a => isWordChar a | None => false end.

Definition head (s : string) : option ascii :=
  match s with String c _ => Some c | EmptyString => None end.

(** The assertion \b between the code unit [a] before and [b] after. *)
Definition wordBoundary (a b : option ascii) : bool :=
  xorb (isWordOpt a) (isWordOpt b).

(** new RegExp(`\\b${kw}\\b`, "i").test(s), [prev] being the code unit
    before [s]. *)
Fixpoint testWordFrom (kw : string) (prev : option ascii) (s : string) : bool :=
  (wordBoundary prev (head s) &&
   match matchLiteral kw s prev with
   | Some (last, rest) => wordBoundary last (head rest)
   | None => false
   end) ||
  match s with
  | EmptyString => false
  | String c r => testWordFrom kw (Some c) r
  end.

Definition testWord (kw s : string) : bool := testWordFrom kw None s.

End JsString.

(** ** domain/services/EntityExtractor.ts *)

Module EntityExtractor.
Import JsString.

Inductive OrderAction := cancel | return_ | refund.

Record ExtractedEntities := {
  product_name : option string;
  product_keywords : option (list string);
  color : option string;
  size : option string;
  category : option string;
  order_id : option string;
  order_keywords : option (list string);
  user_status : option bool;
  user_id : option string;
  menu_query : option bool;
  order_action : option OrderAction;
  general_faq : option bool
}.

(** The object literal {} *)
Definition noEntities : ExtractedEntities :=
  {| product_name := None; product_keywords := None; color := None;
     size := None; category := None; order_id := None;
     order_keywords := None; user_status := None; user_id := None;
     menu_query := None; order_action := None; general_faq := None |}.

(** Property assignments  entities.f = v *)
Definition set_product_name v e :=
  {| product_name := Some v; product_keywords := product_keywords e;
     color := color e; size := size e; category := category e;
     order_id := order_id e; order_keywords := order_keywords e;
     user_status := user_status e; user_id := user_id e;
     menu_query := menu_query e; order_action := order_action e;
     general_faq := general_faq e |}.
Definition set_product_keywords v e :=
  {| product_name := product_name e; product_keywords := Some v;
     color := color e; size := size e; category := category e;
     order_id := order_id e; order_keywords := order_keywords e;
     user_status := user_status e; user_id := user_id e;
     menu_query := menu_query e; order_action := order_action e;
     general_faq := general_faq e |}.
Definition set_color v e :=
  {| product_name := product_name e; product_keywords := product_keywords e;
     color := Some v; size := size e; category := category e;
     order_id := order_id e; order_keywords := order_keywords e;
     user_status := user_status e; user_id := user_id e;
     menu_query := menu_query e; order_action := order_action e;
     general_faq := general_faq e |}.
Definition set_size v e :=
  {| product_name := product_name e; product_keywords := product_keywords e;
     color := color e; size := Some v; category := category e;
     order_id := order_id e; order_keywords := order_keywords e;
     user_status := user_status e; user_id := user_id e;
     menu_query := menu_query e; order_action := order_action e;
     general_faq := general_faq e |}.
Definition set_category v e :=
  {| product_name := product_name e; product_keywords := product_keywords e;
     color := color e; size := size e; category := Some v;
     order_id := order_id e; order_keywords := order_keywords e;
     user_status := user_status e; user_id := user_id e;
     menu_query := menu_query e; order_action := order_action e;
     general_faq := general_faq e |}.
Definition set_order_id v e :=
  {| product_name := product_name e; product_keywords := product_keywords e;
     color := color e; size := size e; category := category e;
     order_id := Some v; order_keywords := order_keywords e;
     user_status := user_status e; user_id := user_id e;
     menu_query := menu_query e; order_action := order_action e;
     general_faq := general_faq e |}.
Definition set_order_keywords v e :=
  {| product_name := product_name e; product_keywords := product_keywords e;
     color := color e; size := size e; category := category e;
     order_id := order_id e; order_keywords := Some v;
     user_status := user_status e; user_id := user_id e;
     menu_query := menu_query e; order_action := order_action e;
     general_faq := general_faq e |}.
Definition set_user_status v e :=
  {| product_name := product_name e; product_keywords := product_keywords e;
     color := color e; size := size e; category := category e;
     order_id := order_id e; order_keywords := order_keywords e;
     user_status := Some v; user_id := user_id e;
     menu_query := menu_query e; order_action := order_action e;
     general_faq := general_faq e |}.
Definition set_user_id v e :=
  {| product_name := product_name e; product_keywords := product_keywords e;
     color := color e; size := size e; category := category e;
     order_id := order_id e; order_keywords := order_keywords e;
     user_status := user_status e; user_id := Some v;
     menu_query := menu_query e; order_action := order_action e;
     general_faq := general_faq e |}.
Definition set_menu_query v e :=
  {| product_name := product_name e; product_keywords := product_keywords e;
     color := color e; size := size e; category := category e;
     order_id := order_id e; order_keywords := order_keywords e;
     user_status := user_status e; user_id := user_id e;
     menu_query := Some v; order_action := order_action e;
     general_faq := general_faq e |}.
Definition set_order_action v e :=
  {| product_name := product_name e; product_keywords := product_keywords e;
     color := color e; size := size e; category := category e;
     order_id := order_id e; order_keywords := order_keywords e;
     user_status := user_status e; user_id := user_id e;
     menu_query := menu_query e; order_action := Some v;
     general_faq := general_faq e |}.
Definition set_general_faq v e :=
  {| product_name := product_name e; product_keywords := product_keywords e;
     color := color e; size := size e; category := category e;
     order_id := order_id e; order_keywords := order_keywords e;
     user_status := user_status e; user_id := user_id e;
     menu_query := menu_query e; order_action := order_action e;
     general_faq := Some v |}.

(** Truthiness of an optional property.  A string is truthy when it is not
    empty, an array always, a boolean when it is [true]. *)
Definition truthyStr (o : option string) : bool :=
  match o with Some s => negb (String.eqb s "") | None => false end.
Definition truthyArr (o : option (list string)) : bool :=
  match o with Some _ => true | None => false end.
Definition truthyBool (o : option bool) : bool :=
  match o with Some b => b | None => false end.
Definition truthyAct (o : option OrderAction) : bool :=
  match o with Some _ => true | None => false end.

Definition COLOR_KEYWORDS : list string := [
  "merah";"biru";"hijau";"kuning";"hitam";"putih";"abu";"abu-abu";
  "coklat";"ungu";"pink";"oren";"oranye";"emas";"silver";
  "red";"blue";"green";"yellow";"black";"white";"grey";"gray";
  "brown";"purple";"pink";"orange";"gold";"silver"
].

Definition SIZE_KEYWORDS : list string := [
  "s";"m";"l";"xl";"xxl";"xxxl";
  "all size";"all-size";"allsz";"jumbo";"standar";"standard";
  "28";"29";"30";"31";"32";"33";"34";"35";"36";"37";"38";"39";"40";
  "41";"42";"43";"44";"45"
].

Definition PRODUCT_KEYWORDS : list string := [
  "produk";"barang";"twill";"manohara";"standard";"std";"bahan";"item";"baju";"pakaian";
  "dress";"kemeja";"celana";"rok";"jaket";"sweater";"kaos";"t-shirt";"jeans";
  "sepatu";"shoes";"sandal";"tas";"bag";"aksesoris";"accessories";"topi";"hat";
  "kacamata";"glasses";"jam tangan";"watch";"perhiasan";"jewelry";"gelang";"bracelet";
  "kalung";"necklace";"cincin";"ring";"anting";"earrings";"syal";"scarf";"belt";"ikat pinggang";
  "dompet";"wallet";"cari";"search";"find";"temukan";"rekomendasi";"recommendation"
].

Definition ORDER_KEYWORDS : list string := [
  "order";"pesanan";"pembelian";"purchase";"tracking";"lacak";"status";
  "pengiriman";"delivery";"shipment";"resi";"receipt";"invoice";"faktur";
  "pembayaran";"payment";"konfirmasi";"confirmation";"return";"pengembalian";
  "refund";"cancel";"batal";"complain";"komplain";"keluhan";"nomor order";
  "order number";"id pesanan";"order id";"cek pesanan";"check order"
].

(** Object.entries(CATEGORY_KEYWORDS): the keys are not array indices, so
    the entries come in the order the literal lists them. *)
Definition CATEGORY_KEYWORDS : list (string * string) := [
  ("dress", "gamis");
  ("gaun", "gamis");
  ("atasan", "setelan");
  ("blouse", "setelan");
  ("kemeja", "shirt");
  ("baju", "tops");
  ("pakaian", "setelan");
  ("celana", "setelan");
  ("jeans", "setelan");
  ("rok", "setelan");
  ("jaket", "setelan");
  ("sweater", "setelan");
  ("kaos", "setelan");
  ("t-shirt", "setelan");
  ("daster", "daster");
  ("gamis", "gamis");
  ("setelan", "setelan");
  ("sepatu", "shoes");
  ("shoes", "shoes");
  ("sandal", "shoes");
  ("tas", "bag");
  ("bag", "bag");
  ("topi", "hat");
  ("hat", "hat");
  ("dompet", "wallet")
].

Definition USER_STATUS_KEYWORDS : list string := [
  "status saya";"status user";"akun saya";"membership";"keanggotaan";
  "user status";"my account";"profil saya"
].

Definition MENU_KEYWORDS : list string := [
  "menu";"fitur";"layanan";"akses";"apa saja yang bisa";
  "apa yang tersedia";"what can i access";"available menu";"options"
].

Definition GENERAL_FAQ_KEYWORDS : list string := [
  "ini web apa";"tentang";"apa itu";"siapa";"company";
  "perusahaan";"brand";"official";"resmi";"apa fungsi";"apa gunanya"
].

Definition ORDER_ID_TRIGGERS : list string :=
  ["order";"pesanan";"tracking";"lacak";"status";"nomor";"number";"id"].

Definition USER_ID_TRIGGERS : list string :=
  ["user";"pengguna";"member";"anggota";"akun";"account"].

(** The steps of extractEntities, in the order of the source.  Each takes
    the lower-cased message and the entities object built so far. *)

(** for (const [kw, cat] of Object.entries(CATEGORY_KEYWORDS))
      if (lowercaseMessage.includes(kw)) { entities.category = cat; break; } *)
Definition stepCategory (lowercaseMessage : string) (entities : ExtractedEntities) :=
  match List.find (fun '(kw, _) => includes lowercaseMessage kw) CATEGORY_KEYWORDS with
  | Some (_, cat) => set_category cat entities
  | None => entities
  end.

(** if (!entities.category && (entities.product_keywords || entities.product_name))
      entities.category = "gamis"; *)
Definition stepDefaultCategory (entities : ExtractedEntities) :=
  if negb (truthyStr (category entities)) &&
     (truthyArr (product_keywords entities) || truthyStr (product_name entities))
  then set_category "gamis" entities
  else entities.

Definition stepProduct (lowercaseMessage : string) (entities : ExtractedEntities) :=
  let productMatches :=
    List.filter (fun kw => includes lowercaseMessage kw) PRODUCT_KEYWORDS in
  match productMatches with
  | first :: _ =>
      set_product_name first (set_product_keywords productMatches entities)
  | [] => entities
  end.

Definition stepOrderKeywords (lowercaseMessage : string) (entities : ExtractedEntities) :=
  let orderMatches :=
    List.filter (fun kw => includes lowercaseMessage kw) ORDER_KEYWORDS in
  match orderMatches with
  | _ :: _ => set_order_keywords orderMatches entities
  | [] => entities
  end.

Definition stepOrderId (lowercaseMessage : string) (entities : ExtractedEntities) :=
  match matchId ORDER_ID_TRIGGERS lowercaseMessage with
  | Some d => if negb (String.eqb d "") then set_order_id d entities else entities
  | None => entities
  end.

Definition stepOrderAction (lowercaseMessage : string) (entities : ExtractedEntities) :=
  if includes lowercaseMessage "cancel" || includes lowercaseMessage "batal"
  then set_order_action cancel entities
  else if includes lowercaseMessage "return" ||
          includes lowercaseMessage "pengembalian"
  then set_order_action return_ entities
  else if includes lowercaseMessage "refund"
  then set_order_action refund entities
  else entities.

Definition stepColor (lowercaseMessage : string) (entities : ExtractedEntities) :=
  match List.find (fun c => includes lowercaseMessage c) COLOR_KEYWORDS with
  | Some colorMatch =>
      if negb (String.eqb colorMatch "") then set_color colorMatch entities
      else entities
  | None => entities
  end.

Definition stepSize (lowercaseMessage : string) (entities : ExtractedEntities) :=
  match List.find (fun s => testWord s lowercaseMessage) SIZE_KEYWORDS with
  | Some sizeMatch =>
      if negb (String.eqb sizeMatch "") then set_size sizeMatch entities
      else entities
  | None => entities
  end.

Definition stepUserStatus (lowercaseMessage : string) (entities : ExtractedEntities) :=
  if List.existsb (fun kw => includes lowercaseMessage kw) USER_STATUS_KEYWORDS
  then set_user_status true entities else entities.

Definition stepUserId (lowercaseMessage : string) (entities : ExtractedEntities) :=
  match matchId USER_ID_TRIGGERS lowercaseMessage with
  | Some d => if negb (String.eqb d "") then set_user_id d entities else entities
  | None => entities
  end.

Definition stepMenuQuery (lowercaseMessage : string) (entities : ExtractedEntities) :=
  if List.existsb (fun kw => includes lowercaseMessage kw) MENU_KEYWORDS
  then set_menu_query true entities else entities.

Definition stepGeneralFaq (lowercaseMessage : string) (entities : ExtractedEntities) :=
  if List.existsb (fun kw => includes lowercaseMessage kw) GENERAL_FAQ_KEYWORDS
  then set_general_faq true entities else entities.

Definition extractEntities (message : string) : ExtractedEntities :=
  let lowercaseMessage := toLowerCase message in
  let entities := noEntities in
  let entities := stepCategory lowercaseMessage entities in
  let entities := stepDefaultCategory entities in
  let entities := stepProduct lowercaseMessage entities in
  let entities := stepOrderKeywords lowercaseMessage entities in
  let entities := stepOrderId lowercaseMessage entities in
  let entities := stepOrderAction lowercaseMessage entities in
  let entities := stepColor lowercaseMessage entities in
  let entities := stepSize lowercaseMessage entities in
  let entities := stepUserStatus lowercaseMessage entities in
  let entities := stepUserId lowercaseMessage entities in
  let entities := stepMenuQuery lowercaseMessage entities in
  let entities := stepGeneralFaq lowercaseMessage entities in
  entities.

End EntityExtractor.

(** ** The Intent enumeration (declared in IntentClassifier.ts) *)

Inductive Intent :=
  | PRODUCT_SEARCH
  | ORDER_TRACKING
  | GREETING
  | GENERAL_QUERY
  | FALLBACK
  | USER_STATUS
  | MENU_QUERY
  | ORDER_ACTION
  | GENERAL_FAQ.

Definition intentValue (i : Intent) : string :=
  match i with
  | PRODUCT_SEARCH => "product_search"
  | ORDER_TRACKING => "order_tracking"
  | GREETING => "greeting"
  | GENERAL_QUERY => "general_query"
  | FALLBACK => "fallback"
  | USER_STATUS => "user_status"
  | MENU_QUERY => "menu_query"
  | ORDER_ACTION => "order_action"
  | GENERAL_FAQ => "general_faq"
  end.

(** ** domain/entities/ConversationState.ts *)

Module ConversationState.

(** A value of  entities: Record<string, any>  *)
Inductive EntityValue :=
  | VStr (s : string)
  | VArr (l : list string)
  | VBool (b : bool).

Record Context := {
  lastMessage : string;
  lastResponse : string;
  previousIntents : list Intent;
  turnCount : nat;
  lastProductSearch : option string;
  lastOrderId : option string
}.

(** [currentIntent] is typed  string | null ; every value the program stores
    there is a member of [Intent], and the classifier reads it back as one. *)
Record ConversationState := {
  sessionId : string;
  currentIntent : option Intent;
  entities : gmap string EntityValue;
  context : Context;
  confidence : Q
}.

(** A context object of an update: [None] is a key the object does not
    have. *)
Record ContextUpdate := {
  u_lastMessage : option string;
  u_lastResponse : option string;
  u_previousIntents : option (list Intent);
  u_turnCount : option nat;
  u_lastProductSearch : option string;
  u_lastOrderId : option string
}.

(** Partial<ConversationState> *)
Record StateUpdate := {
  u_sessionId : option string;
  u_currentIntent : option (option Intent);
  u_entities : option (gmap string EntityValue);
  u_context : option ContextUpdate;
  u_confidence : option Q
}.

Definition noContextUpdate : ContextUpdate :=
  {| u_lastMessage := None; u_lastResponse := None; u_previousIntents := None;
     u_turnCount := None; u_lastProductSearch := None; u_lastOrderId := None |}.

Definition noUpdate : StateUpdate :=
  {| u_sessionId := None; u_currentIntent := None; u_entities := None;
     u_context := None; u_confidence := None |}.

Definition createConversationState (sessionId : string) : ConversationState :=
  {| sessionId := sessionId;
     currentIntent := None;
     entities := ∅;
     context := {| lastMessage := ""; lastResponse := "";
                   previousIntents := []; turnCount := 0;
                   lastProductSearch := None; lastOrderId := None |};
     confidence := 1.0%Q |}.

(** One key of an object spread  { ...old, ...new } : for a required field
    and for an optional one. *)
Definition spread {A} (old : A) (new : option A) : A :=
  match new with Some v => v | None => old end.

Definition spreadOpt {A} (old new : option A) : option A :=
  match new with Some v => Some v | None => old end.

(** { ...state.context, ...c } *)
Definition spreadContext (old : Context) (c : ContextUpdate) : Context :=
  {| lastMessage := spread (lastMessage old) (u_lastMessage c);
     lastResponse := spread (lastResponse old) (u_lastResponse c);
     previousIntents := spread (previousIntents old) (u_previousIntents c);
     turnCount := spread (turnCount old) (u_turnCount c);
     lastProductSearch := spreadOpt (lastProductSearch old) (u_lastProductSearch c);
     lastOrderId := spreadOpt (lastOrderId old) (u_lastOrderId c) |}.

Definition updateConversationState
    (state : ConversationState) (updates : StateUpdate) : ConversationState :=
  {| sessionId := spread (sessionId state) (u_sessionId updates);
     currentIntent := spread (currentIntent state) (u_currentIntent updates);
     confidence := spread (confidence state) (u_confidence updates);
     context :=
       spreadContext (context state)
         (match u_context updates with Some c => c | None => noContextUpdate end);
     entities :=
       (match u_entities updates with Some e => e | None => ∅ end)
       ∪ entities state |}.

Definition addMessageToState
    (state : ConversationState) (message response : string) : ConversationState :=
  updateConversationState state
    {| u_sessionId := None; u_currentIntent := None; u_entities := None;
       u_confidence := None;
       u_context := Some
         {| u_lastMessage := Some message;
            u_lastResponse := Some response;
            u_turnCount := Some (turnCount (context state) + 1);
            u_previousIntents := Some (previousIntents (context state));
            u_lastProductSearch := None; u_lastOrderId := None |} |}.

Definition addIntentToState
    (state : ConversationState) (intent : Intent) (confidence : Q)
  : ConversationState :=
  updateConversationState state
    {| u_sessionId := None; u_entities := None;
       u_currentIntent := Some (Some intent);
       u_confidence := Some confidence;
       u_context := Some
         {| u_lastMessage := Some (lastMessage (context state));
            u_lastResponse := Some (lastResponse (context state));
            u_previousIntents :=
              Some (previousIntents (context state) ++ [intent])%list;
            u_turnCount := Some (turnCount (context state) + 1);
            u_lastProductSearch := None; u_lastOrderId := None |} |}.

Definition addEntityToState
    (state : ConversationState) (entityName : string) (entityValue : EntityValue)
  : ConversationState :=
  updateConversationState state
    {| u_sessionId := None; u_currentIntent := None; u_context := None;
       u_confidence := None;
       u_entities := Some {[ entityName := entityValue ]} |}.

End ConversationState.

(** ** The session table as a plain JavaScript object *)

Module PlainObject.

(** The table is created by  const conversationStates = {}  and read by
    conversationStates[sessionId] , which looks a key up among the stored
    entries and then in Object.prototype.  These are the names of the members
    of Object.prototype (ECMAScript 2023, sections 20.1.3 and B.2.2); each of
    them is truthy when read from a plain object. *)
Definition objectPrototypeMembers : list string :=
  [ "constructor"; "hasOwnProperty"; "isPrototypeOf"; "propertyIsEnumerable";
    "toLocaleString"; "toString"; "valueOf"; "__proto__";
    "__defineGetter__"; "__defineSetter__";
    "__lookupGetter__"; "__lookupSetter__" ].

(** conversationStates[key]  is truthy although nothing is stored under
    [key]. *)
Definition inheritedMember (key : string) : bool :=
  existsb (String.eqb key) objectPrototypeMembers.

(** The keys on which the plain object is a finite map: a read finds what
    was stored under the key and nothing else, and a write stores an entry
    (a write under "__proto__" would replace the prototype instead). *)
Definition plainKey (key : string) : Prop := inheritedMember key = false.

End PlainObject.

(** ** application/services/ConversationStateManager.ts *)

Module ConversationStateManager.
Import ConversationState.

(** The table  conversationStates : its stored entries.  The functions below
    are those of the source on the keys of [PlainObject.plainKey] and on the
    keys that have a stored entry. *)
Abbreviation Store := (gmap string ConversationState).

Definition getConversationState (sessionId : string) (conversationStates : Store)
  : ConversationState * Store :=
  match conversationStates !! sessionId with
  | Some state => (state, conversationStates)
  | None =>
      let state := createConversationState sessionId in
      (state, <[sessionId := state]> conversationStates)
  end.

Definition updateState (sessionId : string) (updates : StateUpdate)
    (conversationStates : Store) : ConversationState * Store :=
  let '(currentState, conversationStates) :=
    getConversationState sessionId conversationStates in
  let updatedState := updateConversationState currentState updates in
  (updatedState, <[sessionId := updatedState]> conversationStates).



End ConversationStateManager.

(** ** domain/services/IntentClassifier.ts *)

Module IntentClassifier.
Import JsString EntityExtractor.

Record IntentClassification := {
  intent : Intent;
  confidence : Q;
  entities : ExtractedEntities
}.

Definition GREETING_PATTERNS : list string := [
  "halo"; "hello"; "hi"; "hey"; "selamat pagi"; "selamat siang"; "selamat sore";
  "selamat malam"; "good morning"; "good afternoon"; "good evening"; "assalamualaikum";
  "permisi"; "excuse me"; "hai"; "apa kabar"; "how are you"
].

(** The test of the greeting loop body *)
Definition greetingTest (lowercaseMessage pattern : string) : bool :=
  includes lowercaseMessage pattern && (String.length lowercaseMessage <? 20)%nat.

(** entities.product_keywords?.length *)
Definition truthyLength (o : option (list string)) : bool :=
  match o with Some l => negb (List.length l =? 0)%nat | None => false end.

(** The conditions of the cascade, in the order of the source *)
Definition greetingRule (lowercaseMessage : string) : bool :=
  List.existsb (greetingTest lowercaseMessage) GREETING_PATTERNS.

Definition productSearchRule (entities : ExtractedEntities) : bool :=
  truthyArr (product_keywords entities) ||
  truthyStr (product_name entities) ||
  truthyStr (color entities) ||
  truthyStr (size entities) ||
  truthyStr (category entities).

Definition orderTrackingRule (entities : ExtractedEntities) : bool :=
  truthyArr (order_keywords entities) || truthyStr (order_id entities).

Definition orderActionRule (entities : ExtractedEntities) : bool :=
  truthyAct (order_action entities).

Definition userStatusRule (entities : ExtractedEntities) : bool :=
  truthyBool (user_status entities).

Definition menuQueryRule (entities : ExtractedEntities) : bool :=
  truthyBool (menu_query entities).

Definition generalFaqRule (entities : ExtractedEntities) : bool :=
  truthyBool (general_faq entities).

(** state && state.currentIntent *)
Definition priorIntent (state : option ConversationState.ConversationState)
  : option Intent :=
  match state with
  | Some s => ConversationState.currentIntent s
  | None => None
  end.

Definition classifyIntent
    (message : string) (state : option ConversationState.ConversationState)
  : IntentClassification :=
  let lowercaseMessage := toLowerCase message in
  let entities := extractEntities message in
  if greetingRule lowercaseMessage then
    {| intent := GREETING; confidence := 0.9%Q; entities := noEntities |}
  else if productSearchRule entities then
    let confidence :=
      if truthyStr (product_name entities) ||
         truthyLength (product_keywords entities)
      then 0.85%Q else 0.7%Q in
    {| intent := PRODUCT_SEARCH; confidence := confidence; entities := entities |}
  else if orderTrackingRule entities then
    let confidence := if truthyStr (order_id entities) then 0.9%Q else 0.75%Q in
    {| intent := ORDER_TRACKING; confidence := confidence; entities := entities |}
  else if orderActionRule entities then
    {| intent := ORDER_ACTION; confidence := 0.85%Q; entities := entities |}
  else if userStatusRule entities then
    {| intent := USER_STATUS; confidence := 0.9%Q; entities := entities |}
  else if menuQueryRule entities then
    {| intent := MENU_QUERY; confidence := 0.9%Q; entities := entities |}
  else if generalFaqRule entities then
    {| intent := GENERAL_FAQ; confidence := 0.85%Q; entities := entities |}
  else
    match priorIntent state with
    | Some previous =>
        {| intent := previous; confidence := 0.5%Q; entities := entities |}
    | None =>
        {| intent := GENERAL_QUERY; confidence := 0.3%Q; entities := entities |}
    end.

(** None of the seven rules above the context continuation fires. *)
Definition noRuleFires (message : string) : bool :=
  let entities := extractEntities message in
  negb (greetingRule (toLowerCase message)) &&
  negb (productSearchRule entities) &&
  negb (orderTrackingRule entities) &&
  negb (orderActionRule entities) &&
  negb (userStatusRule entities) &&
  negb (menuQueryRule entities) &&
  negb (generalFaqRule entities).

(** x < y on the confidence scale *)
Definition Qltb (x y : Q) : bool := negb (Qle_bool y x).

Definition shouldUseFallback (classification : IntentClassification) : bool :=
  Qltb (confidence classification) 0.4%Q.

Definition fallbackResponses : list string := [
  "Maaf, saya tidak yakin apa yang Anda maksud. Bisakah Anda menjelaskan dengan lebih detail?";
  "Saya kurang memahami permintaan Anda. Anda bisa bertanya tentang produk fashion kami atau status pesanan Anda.";
  "Mohon maaf, saya tidak mengerti. Coba tanyakan dengan cara lain atau berikan informasi lebih spesifik.";
  "Saya masih belajar untuk memahami permintaan Anda. Bisakah Anda mengajukan pertanyaan dengan cara yang berbeda?"
].

(** [random] stands for  Math.floor(Math.random() * fallbackResponses.length) *)
Definition getFallbackResponse (random : nat) : string :=
  List.nth (random mod List.length fallbackResponses) fallbackResponses "".

End IntentClassifier.

(** ** adapters/controllers/chatController.ts *)

Module ChatController.
Import JsString EntityExtractor ConversationState ConversationStateManager.

(** How an awaited call ends *)
Inductive Outcome (A : Type) :=
  | Returned (a : A)
  | Threw.
Arguments Returned {A} a.
Arguments Threw {A}.

(** The calls the handler makes to its collaborators, with their arguments *)
Inductive Call :=
  | SearchProductsExternal (keyword : string) (category color size : option string)
      (page limit : nat) (cookie : option string)
  | SearchProducts (keyword : string)
  | GetOrderByIdExternal (orderId : string) (cookie : option string)
  | GetOrderById (orderId : string)
  | GetUserStatusExternal (userId cookie : string)
  | GroqCompletion (message contextPrompt : string).

(** The session table and the log of calls made so far *)
Record World := {
  conversationStates : Store;
  calls : list Call
}.

(** A computation of the handler: it reads and writes the world and either
    returns or throws. *)
Definition M (A : Type) : Type := World -> Outcome A * World.

Definition ret {A} (a : A) : M A := fun w => (Returned a, w).

Definition bind {A B} (m : M A) (k : A -> M B) : M B :=
  fun w =>
    match m w with
    | (Returned a, w') => k a w'
    | (Threw, w') => (Threw, w')
    end.

Notation "'let*' x ':=' m 'in' k" := (bind m (fun x => k))
  (at level 10, x binder, m at level 100, k at level 200, only parsing).

(** try { m } catch { handler } *)
Definition tryCatch {A} (m handler : M A) : M A :=
  fun w =>
    match m w with
    | (Returned a, w') => (Returned a, w')
    | (Threw, w') => handler w'
    end.

(** await of a collaborator: the call is logged, the outcome is the world's *)
Definition await {A} (c : Call) (outcome : Outcome A) : M A :=
  fun w =>
    (outcome,
     {| conversationStates := conversationStates w; calls := calls w ++ [c] |}).

(** An operation of the state manager *)
Definition onStore {A} (f : Store -> A * Store) : M A :=
  fun w =>
    let '(a, st) := f (conversationStates w) in
    (Returned a, {| conversationStates := st; calls := calls w |}).

Inductive HttpResponse :=
  | Json (response sessionId : string)   (* res.json({ response, sessionId }) *)
  | BadRequest                           (* res.status(400) *)
  | ServerError                          (* res.status(500) *)
  | Unhandled.                           (* the handler's promise rejects *)

(** req.body.message, req.body.sessionId, req.cookies?.aninka_session :
    each absent or a string, as the chat client sends them. *)
Record Request := {
  body_message : option string;
  body_sessionId : option string;
  cookie_aninka_session : option string
}.

Definition newline : string := String (ascii_of_nat 10) "".
Definition dquote : string := String (ascii_of_nat 34) "".

Definition greetings : list string := [
  "Halo! Selamat datang di Aninka Fashion. Ada yang bisa saya bantu hari ini?";
  "Selamat datang di layanan chat Aninka Fashion. Bagaimana saya bisa membantu Anda?";
  "Hai! Terima kasih telah menghubungi Aninka Fashion. Ada yang bisa saya bantu?"
].

Definition userStatusUnavailable : string :=
  "Maaf, saya tidak dapat mengakses informasi keanggotaan Anda saat ini. Silakan coba lagi nanti atau hubungi customer service kami.".

Definition pleaseLogIn : string :=
  "Untuk melihat status keanggotaan Anda, silakan login terlebih dahulu.".

Definition userNotFound : string :=
  "Maaf, saya tidak dapat menemukan informasi pengguna. Mohon pastikan Anda sudah login.".

Section Handler.

(** The payloads of the collaborators and their formatters stay abstract. *)
Variables ApiProduct Product ApiOrder Order ApiUser : Type.
Variable formatExternalProductResponse : list ApiProduct -> string.
Variable formatProductResponse : list Product -> string.
Variable formatExternalOrderResponse : option ApiOrder -> string.
Variable formatOrderResponse : option Order -> string.
Variable formatUserProfile : ApiUser -> string.

(** infrastructure/api/ExternalApi.ts, formatUserStatusResponse: the null
    case is a fixed text, the other formats the profile. *)
Definition formatUserStatusResponse (user : option ApiUser) : string :=
  match user with
  | None => userNotFound
  | Some u => formatUserProfile u
  end.

(** What the outside world answers during one request *)
Record Env := {
  uuidv4 : string;
  randomFallback : nat;
  randomGreeting : nat;
  searchProductsExternal :
    string -> option string -> option string -> option string ->
    nat -> nat -> option string -> Outcome (list ApiProduct);
  searchProducts : string -> Outcome (list Product);
  getOrderByIdExternal : string -> option string -> Outcome (option ApiOrder);
  getOrderById : string -> Outcome (option Order);
  getUserStatusExternal : string -> string -> Outcome (option ApiUser);
  groqCompletion : string -> string -> Outcome (option string)
}.

Section Turn.

Variable env : Env.

(** The context object every path writes: lastMessage, lastResponse,
    turnCount + 1 and the history, plus the key of the path if any. *)
Definition turnUpdate (conversationState : ConversationState)
    (classification : IntentClassifier.IntentClassification)
    (message responseText : string)
    (lastProductSearch lastOrderId : option string) : StateUpdate :=
  {| u_sessionId := None; u_currentIntent := None; u_entities := None;
     u_confidence := None;
     u_context := Some
       {| u_lastProductSearch := lastProductSearch;
          u_lastOrderId := lastOrderId;
          u_lastMessage := Some message;
          u_lastResponse := Some responseText;
          u_turnCount := Some (turnCount (context conversationState) + 1);
          u_previousIntents :=
            Some (previousIntents (context conversationState)
                  ++ [IntentClassifier.intent classification])%list |} |}.

(** The own properties of the entities object, as stored in the state *)
Definition prop {A} (k : string) (f : A -> EntityValue) (o : option A)
  : list (string * EntityValue) :=
  match o with Some v => [(k, f v)] | None => [] end.

Definition orderActionValue (a : OrderAction) : string :=
  match a with cancel => "cancel" | return_ => "return" | refund => "refund" end.

Definition ownProperties (e : ExtractedEntities) : gmap string EntityValue :=
  list_to_map
    (prop "product_name" VStr (product_name e) ++
     prop "product_keywords" VArr (product_keywords e) ++
     prop "color" VStr (color e) ++
     prop "size" VStr (size e) ++
     prop "category" VStr (category e) ++
     prop "order_id" VStr (order_id e) ++
     prop "order_keywords" VArr (order_keywords e) ++
     prop "user_status" VBool (user_status e) ++
     prop "user_id" VStr (user_id e) ++
     prop "menu_query" VBool (menu_query e) ++
     prop "order_action" (fun a => VStr (orderActionValue a)) (order_action e) ++
     prop "general_faq" VBool (general_faq e))%list.

Definition getGroqResponse (message : string) (state : ConversationState)
  : M string :=
  let contextPrompt :=
    if (0 <? turnCount (context state))%nat then
      newline ++ "Konteks percakapan sebelumnya:" ++
      newline ++ "Pesan terakhir pengguna: " ++
        dquote ++ lastMessage (context state) ++ dquote ++
      newline ++ "Respon terakhir Anda: " ++
        dquote ++ lastResponse (context state) ++ dquote
    else "" in
  let* content := await (GroqCompletion message contextPrompt)
                        (groqCompletion env message contextPrompt) in
  ret (match content with Some text => text | None => "" end).

Section Dispatch.

Variables (sessionId message : string) (laravelCookie : option string).
Variable conversationState : ConversationState.
Variable classification : IntentClassifier.IntentClassification.

Let entities := IntentClassifier.entities classification.

(** case Intent.PRODUCT_SEARCH *)
Definition productSearch : M string :=
  let productQuery :=
    match product_name entities with
    | Some name => if negb (String.eqb name "") then name
                   else match product_keywords entities with
                        | Some (first :: _) => first
                        | _ => ""
                        end
    | None => match product_keywords entities with
              | Some (first :: _) => first
              | _ => ""
              end
    end in
  if negb (String.eqb productQuery "") then
    let mock :=
      let* products := await (SearchProducts productQuery)
                             (searchProducts env productQuery) in
      ret (formatProductResponse products) in
    let* responseText :=
      tryCatch
        (let* externalProducts :=
           await (SearchProductsExternal productQuery (category entities)
                    (color entities) (size entities) 1 5 laravelCookie)
                 (searchProductsExternal env productQuery (category entities)
                    (color entities) (size entities) 1 5 laravelCookie) in
         if (0 <? List.length externalProducts)%nat
         then ret (formatExternalProductResponse externalProducts)
         else mock)
        mock in
    let* _ := onStore (updateState sessionId
                (turnUpdate conversationState classification message
                   responseText (Some productQuery) None)) in
    ret responseText
  else getGroqResponse message conversationState.

(** case Intent.ORDER_TRACKING *)
Definition orderTracking : M string :=
  match order_id entities with
  | Some orderId =>
      if negb (String.eqb orderId "") then
        let mock :=
          let* order := await (GetOrderById orderId) (getOrderById env orderId) in
          ret (formatOrderResponse order) in
        let* responseText :=
          tryCatch
            (let* externalOrder :=
               await (GetOrderByIdExternal orderId laravelCookie)
                     (getOrderByIdExternal env orderId laravelCookie) in
             match externalOrder with
             | Some _ => ret (formatExternalOrderResponse externalOrder)
             | None => mock
             end)
            mock in
        let* _ := onStore (updateState sessionId
                    (turnUpdate conversationState classification message
                       responseText None (Some orderId))) in
        ret responseText
      else getGroqResponse message conversationState
  | None => getGroqResponse message conversationState
  end.

(** case Intent.GREETING *)
Definition greeting : M string :=
  ret (List.nth (randomGreeting env mod List.length greetings) greetings "").

(** case Intent.USER_STATUS *)
Definition userStatus : M string :=
  match user_id entities, laravelCookie with
  | Some userId, Some cookie =>
      if negb (String.eqb userId "") && negb (String.eqb cookie "") then
        tryCatch
          (let* status := await (GetUserStatusExternal userId cookie)
                                (getUserStatusExternal env userId cookie) in
           ret (formatUserStatusResponse status))
          (ret userStatusUnavailable)
      else ret pleaseLogIn
  | _, _ => ret pleaseLogIn
  end.

(** switch (classification.intent) *)
Definition dispatch : M string :=
  match IntentClassifier.intent classification with
  | PRODUCT_SEARCH => productSearch
  | ORDER_TRACKING => orderTracking
  | GREETING => greeting
  | USER_STATUS => userStatus
  | _ => getGroqResponse message conversationState
  end.

End Dispatch.

(** The body of [chat] once the message and the session id are known *)
Definition handle (sessionId message : string) (laravelCookie : option string)
  : M HttpResponse :=
  let* conversationState := onStore (getConversationState sessionId) in
  let classification :=
    IntentClassifier.classifyIntent message (Some conversationState) in
  let* _ := onStore (updateState sessionId
    {| u_sessionId := None; u_context := None;
       u_currentIntent := Some (Some (IntentClassifier.intent classification));
       u_confidence := Some (IntentClassifier.confidence classification);
       u_entities :=
         Some (ownProperties (IntentClassifier.entities classification)) |}) in
  if IntentClassifier.shouldUseFallback classification then
    let fallbackResponse :=
      IntentClassifier.getFallbackResponse (randomFallback env) in
    let* _ := onStore (updateState sessionId
                (turnUpdate conversationState classification message
                   fallbackResponse None None)) in
    ret (Json fallbackResponse sessionId)
  else
    tryCatch
      (let* responseText :=
         dispatch sessionId message laravelCookie conversationState
           classification in
       let* _ := onStore (updateState sessionId
                   (turnUpdate conversationState classification message
                      responseText None None)) in
       ret (Json responseText sessionId))
      (ret ServerError).

(** A string operand of  ||  or  !  *)
Definition truthy (o : option string) : option string :=
  match o with
  | Some s => if String.eqb s "" then None else Some s
  | None => None
  end.

Definition chat (req : Request) (w : World) : HttpResponse * World :=
  match truthy (body_message req) with
  | None => (BadRequest, w)
  | Some message =>
      let laravelCookie := cookie_aninka_session req in
      let sessionId :=
        match truthy (body_sessionId req) with
        | Some clientSessionId => clientSessionId
        | None => uuidv4 env
        end in
      match handle sessionId message laravelCookie w with
      | (Returned response, w') => (response, w')
      | (Threw, w') => (Unhandled, w')
      end
  end.

End Turn.

(** Requests served one after the other, each with the answers the outside
    world gives while it is served. *)
Fixpoint runTurns (turns : list (Env * Request)) (w : World)
  : list HttpResponse * World :=
  match turns with
  | [] => ([], w)
  | (env, req) :: rest =>
      let '(response, w1) := chat env req w in
      let '(responses, w2) := runTurns rest w1 in
      (response :: responses, w2)
  end.

End Handler.

(** The server starts with an empty session table. *)
Definition initialWorld : World :=
  {| conversationStates := ∅; calls := [] |}.

(** context.turnCount of the state stored for [sessionId]; 0 when the
    session has no state yet (a state is created with turnCount 0). *)
Definition turnCountOf (w : World) (sessionId : string) : nat :=
  match conversationStates w !! sessionId with
  | Some state => turnCount (context state)
  | None => 0
  end.


(** A world for examples: payloads without content, an empty external
    product search, a failing external order lookup, a failing language
    model, and the given answer of the user-status service. *)
Definition sampleEnv (status : Outcome (option unit))
  : Env unit unit unit unit unit :=
  {| uuidv4 := "generated-id";
     randomFallback := 0;
     randomGreeting := 0;
     searchProductsExternal := fun _ _ _ _ _ _ _ => Returned [];
     searchProducts := fun _ => Returned [tt];
     getOrderByIdExternal := fun _ _ => Threw;
     getOrderById := fun _ => Returned None;
     getUserStatusExternal := fun _ _ => status;
     groqCompletion := fun _ _ => Threw |}.

Definition sampleChat :=
  chat unit unit unit unit unit
    (fun _ => "external products") (fun _ => "local products")
    (fun _ => "external order") (fun _ => "local order")
    (fun _ => "profile").

Definition sampleRun :=
  runTurns unit unit unit unit unit
    (fun _ => "external products") (fun _ => "local products")
    (fun _ => "external order") (fun _ => "local order")
    (fun _ => "profile").

Definition request (message : string) (sessionId cookie : option string)
  : Request :=
  {| body_message := Some message; body_sessionId := sessionId;
     cookie_aninka_session := cookie |}.

(** No stored state has FALLBACK as its current intent. *)
Definition noFallbackStored (w : World) : Prop :=
  forall sessionId state,
    conversationStates w !! sessionId = Some state ->
    currentIntent state <> Some FALLBACK.

(** What a dispatched action leaves in the session table: the state of the
    session is either untouched or has received the turn's context update,
    and it is untouched when the action throws. *)
Definition dispatched (sessionId message : string)
    (conversationState : ConversationState)
    (classification : IntentClassifier.IntentClassification)
    (state : ConversationState) (store : Store)
    (result : Outcome string * World) : Prop :=
  exists state',
    conversationStates (snd result) = <[sessionId := state']> store /\
    (fst result = Threw -> state' = state) /\
    (state' = state \/
     exists responseText a b,
       state' = updateConversationState state
                  (turnUpdate conversationState classification message
                     responseText a b)).

End ChatController.

(** ** infrastructure/api/ProductApi.ts *)

Module ProductApi.
Import JsString.

Record Product := {
  id : string;
  name : string;
  description : string;
  price : N;
  category : string;
  imageUrl : string;
  inStock : bool
}.

Definition mockProducts : list Product := [
  {| id := "p001";
     name := "Dress Batik Modern";
     description := "Dress batik modern dengan desain elegan, cocok untuk acara formal maupun casual.";
     price := 350000%N;
     category := "dress";
     imageUrl := "https://example.com/images/dress-batik.jpg";
     inStock := true |};
  {| id := "p002";
     name := "Kemeja Pria Slim Fit";
     description := "Kemeja pria slim fit dengan bahan berkualitas tinggi, nyaman dipakai sehari-hari.";
     price := 250000%N;
     category := "kemeja";
     imageUrl := "https://example.com/images/kemeja-slim.jpg";
     inStock := true |};
  {| id := "p003";
     name := "Celana Jeans Wanita";
     description := "Celana jeans wanita dengan potongan high waist, memberikan tampilan yang stylish.";
     price := 280000%N;
     category := "celana";
     imageUrl := "https://example.com/images/jeans-wanita.jpg";
     inStock := true |};
  {| id := "p004";
     name := "Tas Selempang Kulit";
     description := "Tas selempang dari bahan kulit asli, tahan lama dan elegan.";
     price := 450000%N;
     category := "tas";
     imageUrl := "https://example.com/images/tas-kulit.jpg";
     inStock := false |};
  {| id := "p005";
     name := "Sepatu Sneakers Casual";
     description := "Sepatu sneakers casual dengan desain modern, nyaman untuk aktivitas sehari-hari.";
     price := 320000%N;
     category := "sepatu";
     imageUrl := "https://example.com/images/sneakers.jpg";
     inStock := true |}
].

(** The test of the filter in searchProducts *)
Definition matchesKeyword (lowercaseKeyword : string) (product : Product) : bool :=
  includes (toLowerCase (name product)) lowercaseKeyword ||
  includes (toLowerCase (description product)) lowercaseKeyword ||
  includes (toLowerCase (category product)) lowercaseKeyword.

Definition searchProducts (keyword : string) : list Product :=
  if String.eqb keyword "" then []
  else
    let lowercaseKeyword := toLowerCase keyword in
    List.filter (matchesKeyword lowercaseKeyword) mockProducts.

Definition getProductById (productId : string) : option Product :=
  List.find (fun product => String.eqb (id product) productId) mockProducts.

End ProductApi.

(** ** infrastructure/api/OrderApi.ts *)

Module OrderApi.
Import JsString.

Inductive OrderStatus := PENDING | PROCESSING | SHIPPED | DELIVERED | CANCELLED.

Record OrderItem := {
  productId : string;
  productName : string;
  quantity : N;
  price : N
}.

(** [createdAt] and [updatedAt] hold the text the source gives to the Date
    constructor. *)
Record Order := {
  id : string;
  customerId : string;
  items : list OrderItem;
  totalAmount : N;
  status : OrderStatus;
  trackingNumber : option string;
  createdAt : string;
  updatedAt : string
}.

Definition mockOrders : list Order := [
  {| id := "ORD-001";
     customerId := "cust-123";
     items := [ {| productId := "p001"; productName := "Dress Batik Modern";
                   quantity := 1%N; price := 350000%N |} ];
     totalAmount := 350000%N;
     status := SHIPPED;
     trackingNumber := Some "TRK-12345";
     createdAt := "2023-10-15";
     updatedAt := "2023-10-16" |};
  {| id := "ORD-002";
     customerId := "cust-456";
     items := [ {| productId := "p002"; productName := "Kemeja Pria Slim Fit";
                   quantity := 2%N; price := 250000%N |};
                {| productId := "p003"; productName := "Celana Jeans Wanita";
                   quantity := 1%N; price := 280000%N |} ];
     totalAmount := 780000%N;
     status := PROCESSING;
     trackingNumber := None;
     createdAt := "2023-10-18";
     updatedAt := "2023-10-18" |};
  {| id := "ORD-003";
     customerId := "cust-789";
     items := [ {| productId := "p005"; productName := "Sepatu Sneakers Casual";
                   quantity := 1%N; price := 320000%N |} ];
     totalAmount := 320000%N;
     status := DELIVERED;
     trackingNumber := Some "TRK-67890";
     createdAt := "2023-10-10";
     updatedAt := "2023-10-14" |}
].

Definition getOrderById (orderId : string) : option Order :=
  List.find
    (fun order => String.eqb (toLowerCase (id order)) (toLowerCase orderId))
    mockOrders.

Definition getOrdersByCustomerId (customerId' : string) : list Order :=
  List.filter (fun order => String.eqb (customerId order) customerId') mockOrders.

Definition orderNotFound : string :=
  "Maaf, saya tidak dapat menemukan pesanan dengan ID tersebut. Mohon periksa kembali nomor pesanan Anda.".

(** formatOrderResponse: the null case is a fixed text; the text built for
    an order (with its locale-dependent dates and amounts) stays abstract. *)
Definition formatOrderResponse (formatOrderDetails : Order -> string)
    (order : option Order) : string :=
  match order with
  | None => orderNotFound
  | Some o => formatOrderDetails o
  end.

End OrderApi.

(** ** The handler wired to the local order lookup *)

Module Wiring.
Import ChatController.



End Wiring.

(** ** Notions used to state properties of the text functions *)

Module Text.

(** Every code unit of [s] satisfies [p]. *)
Fixpoint allChars (p : ascii -> bool) (s : string) : bool :=
  match s with
  | EmptyString => true
  | String c r => p c && allChars p r
  end.

End Text.

(** ** Notions used to state properties of the session table *)

Module Sessions.
Import ConversationState ChatController.

(** The session id the handler uses for a request: the client's when it is
    truthy, a generated one otherwise (chatController.ts, line 33). *)
Definition sessionIdOf {ApiProduct Product ApiOrder Order ApiUser : Type}
    (env : Env ApiProduct Product ApiOrder Order ApiUser) (req : Request)
  : string :=
  match truthy (body_sessionId req) with
  | Some clientSessionId => clientSessionId
  | None => uuidv4 _ _ _ _ _ env
  end.


(** Every request of a run is served under a key on which the table is a
    finite map. *)
Definition plainKeys {ApiProduct Product ApiOrder Order ApiUser : Type}
    (turns : list (Env ApiProduct Product ApiOrder Order ApiUser * Request))
  : Prop :=
  Forall (fun turn => PlainObject.plainKey (sessionIdOf (fst turn) (snd turn)))
    turns.

(** A stored state is well formed under its key: it carries the key as its
    session id, its history has one entry per counted turn, and it has a
    current intent, which is neither FALLBACK nor ORDER_ACTION. *)
Definition wellFormed (key : string) (state : ConversationState) : Prop :=
  sessionId state = key /\
  List.length (previousIntents (context state)) = turnCount (context state) /\
  exists intent, currentIntent state = Some intent /\
                 intent <> FALLBACK /\ intent <> ORDER_ACTION.

Definition allWellFormed (w : World) : Prop :=
  forall key state,
    conversationStates w !! key = Some state -> wellFormed key state.

End Sessions.

(** * Properties *)

Import JsString EntityExtractor IntentClassifier.

(** ** The entity extractor *)

(** A step that does not assign a property leaves it as it was. *)
Ltac untouched step :=
  match goal with
  | |- context [?proj (step ?lm ?e)] =>
      let H := fresh "H" in
      assert (H : proj (step lm e) = proj e)
        by (generalize e; intro; unfold step; repeat case_match; reflexivity);
      rewrite H; clear H
  end.

(** The default-category test runs on an object that has no product
    property yet, so it never assigns. *)
Lemma stepDefaultCategory_dead (lowercaseMessage : string) :
  stepDefaultCategory (stepCategory lowercaseMessage noEntities)
  = stepCategory lowercaseMessage noEntities.
Proof.
  unfold stepDefaultCategory, stepCategory.
  destruct (List.find _ CATEGORY_KEYWORDS) as [[kw cat]|]; simpl;
    [rewrite andb_false_r|]; reflexivity.
Qed.

Lemma extractEntities_category (message : string) :
  category (extractEntities message)
  = option_map snd
      (List.find (fun '(kw, _) => includes (toLowerCase message) kw)
         CATEGORY_KEYWORDS).
Proof.
  unfold extractEntities; cbv zeta.
  untouched stepGeneralFaq. untouched stepMenuQuery. untouched stepUserId.
  untouched stepUserStatus. untouched stepSize. untouched stepColor.
  untouched stepOrderAction. untouched stepOrderId.
  untouched stepOrderKeywords. untouched stepProduct.
  rewrite stepDefaultCategory_dead. unfold stepCategory.
  destruct (List.find _ CATEGORY_KEYWORDS) as [[kw cat]|]; reflexivity.
Qed.

Lemma extractEntities_order_action (message : string) :
  order_action (extractEntities message)
  = order_action (stepOrderAction (toLowerCase message) noEntities).
Proof.
  unfold extractEntities; cbv zeta.
  untouched stepGeneralFaq. untouched stepMenuQuery. untouched stepUserId.
  untouched stepUserStatus. untouched stepSize. untouched stepColor.
  rewrite stepDefaultCategory_dead.
  unfold stepOrderAction.
  repeat case_match; simpl; try reflexivity.
  untouched stepOrderId. untouched stepOrderKeywords.
  untouched stepProduct. untouched stepCategory. reflexivity.
Qed.

(** C1, evaluated on the message "cari": a product keyword is found and no
    key of the category table occurs, yet the result has no category; the
    default "gamis" is not assigned. *)
Theorem C1_default_category_not_assigned :
  let entities := extractEntities "cari" in
  List.find (fun '(kw, _) => includes (toLowerCase "cari") kw) CATEGORY_KEYWORDS
    = None /\
  product_keywords entities = Some ["cari"] /\
  product_name entities = Some "cari" /\
  category entities = None.
Proof. vm_compute. repeat split. Qed.

(** ** The rule cascade *)

Lemma classifyIntent_greeting message state :
  greetingRule (toLowerCase message) = true ->
  classifyIntent message state
  = {| intent := GREETING; confidence := 0.9%Q; entities := noEntities |}.
Proof. intros H. unfold classifyIntent. rewrite H. reflexivity. Qed.

Lemma classifyIntent_product message state :
  greetingRule (toLowerCase message) = false ->
  productSearchRule (extractEntities message) = true ->
  classifyIntent message state
  = {| intent := PRODUCT_SEARCH;
       confidence :=
         if truthyStr (product_name (extractEntities message)) ||
            truthyLength (product_keywords (extractEntities message))
         then 0.85%Q else 0.7%Q;
       entities := extractEntities message |}.
Proof. intros H1 H2. unfold classifyIntent. rewrite H1, H2. reflexivity. Qed.

(** Below the seven rules the answer depends on the prior intent only. *)
Lemma classifyIntent_no_rule message state :
  noRuleFires message = true ->
  classifyIntent message state
  = match priorIntent state with
    | Some previous =>
        {| intent := previous; confidence := 0.5%Q;
           entities := extractEntities message |}
    | None =>
        {| intent := GENERAL_QUERY; confidence := 0.3%Q;
           entities := extractEntities message |}
    end.
Proof.
  unfold noRuleFires, classifyIntent. cbv zeta. intros H.
  repeat (apply andb_prop in H; destruct H as [H ?]).
  repeat match goal with
         | E : negb ?b = true |- _ => apply negb_true_iff in E; rewrite E
         end.
  reflexivity.
Qed.

(** C7: the scenario message yields product_keywords containing "dress",
    color "merah", size "m" and category "gamis", the table's entry for
    "dress"; the classifier answers PRODUCT_SEARCH with confidence 0.85,
    whatever the prior state. *)
Theorem C7_dress_scenario :
  let message := "saya mau cari dress warna merah ukuran m" in
  let entities := extractEntities message in
  (exists kws, product_keywords entities = Some kws /\ In "dress" kws) /\
  color entities = Some "merah" /\
  size entities = Some "m" /\
  category entities = Some "gamis" /\
  In ("dress", "gamis") CATEGORY_KEYWORDS /\
  forall state,
    intent (classifyIntent message state) = PRODUCT_SEARCH /\
    confidence (classifyIntent message state) = 0.85%Q /\
    IntentClassifier.entities (classifyIntent message state) = entities.
Proof.
  cbv zeta.
  split; [exists ["dress"; "cari"]; split; [vm_compute; reflexivity | left; reflexivity]|].
  do 3 (split; [vm_compute; reflexivity|]).
  split; [left; reflexivity|].
  intros state. rewrite classifyIntent_product by (vm_compute; reflexivity).
  cbn [intent confidence IntentClassifier.entities].
  repeat split.
Qed.

(** C8: order_action follows a fixed priority over the lower-cased text:
    a cancel keyword gives cancel; otherwise a return keyword gives return;
    otherwise the refund keyword gives refund; otherwise the property is
    absent.  One value at most is recorded. *)
Theorem C8_order_action_priority (message : string) :
  let text := toLowerCase message in
  let cancelHit := includes text "cancel" || includes text "batal" in
  let returnHit := includes text "return" || includes text "pengembalian" in
  let refundHit := includes text "refund" in
  (cancelHit = true ->
     order_action (extractEntities message) = Some cancel) /\
  (cancelHit = false -> returnHit = true ->
     order_action (extractEntities message) = Some return_) /\
  (cancelHit = false -> returnHit = false -> refundHit = true ->
     order_action (extractEntities message) = Some refund) /\
  (cancelHit = false -> returnHit = false -> refundHit = false ->
     order_action (extractEntities message) = None).
Proof.
  cbv zeta. rewrite extractEntities_order_action. unfold stepOrderAction.
  repeat split; intros; repeat match goal with H : _ = _ |- _ => rewrite H end;
    reflexivity.
Qed.

(** A text with both a cancel and a refund keyword records cancel. *)
Lemma C8_cancel_wins_over_refund :
  order_action (extractEntities "Please CANCEL my order and refund me")
  = Some cancel.
Proof.
  apply (C8_order_action_priority "Please CANCEL my order and refund me").
  vm_compute. reflexivity.
Defined.

Lemma Qltb_lt (x y : Q) : Qltb x y = true <-> (x < y)%Q.
Proof.
  unfold Qltb. rewrite negb_true_iff. split.
  - intros H. apply Qnot_le_lt. intros Hle.
    apply Qle_bool_iff in Hle. congruence.
  - intros Hlt. destruct (Qle_bool y x) eqn:E; [|reflexivity].
    apply Qle_bool_iff in E. exfalso. exact (Qlt_not_le _ _ Hlt E).
Qed.

Lemma greetingRule_true (text : string) :
  greetingRule text = true <->
  (exists pattern, In pattern GREETING_PATTERNS /\ includes text pattern = true)
  /\ (String.length text < 20)%nat.
Proof.
  unfold greetingRule, greetingTest. rewrite existsb_exists. split.
  - intros (p & Hin & Ht). apply andb_prop in Ht as [Hi Hl].
    apply Nat.ltb_lt in Hl. eauto.
  - intros ((p & Hin & Hi) & Hl). exists p. split; [exact Hin|].
    rewrite Hi. apply Nat.ltb_lt in Hl. rewrite Hl. reflexivity.
Qed.

(** When one of the seven rules fires, the answer is one of the seven
    intents they name, with a confidence of 0.7 or more. *)
Lemma classifyIntent_rule_fires message state :
  noRuleFires message = false ->
  let c := classifyIntent message state in
  In (intent c) [GREETING; PRODUCT_SEARCH; ORDER_TRACKING; ORDER_ACTION;
                 USER_STATUS; MENU_QUERY; GENERAL_FAQ] /\
  In (confidence c) [0.7%Q; 0.75%Q; 0.85%Q; 0.9%Q].
Proof.
  unfold noRuleFires, classifyIntent. cbv zeta.
  generalize (extractEntities message) as e.
  generalize (toLowerCase message) as text. intros text e H.
  destruct (greetingRule text); [cbn; tauto|].
  destruct (productSearchRule e);
    [cbn [intent confidence]; case_match; cbn; tauto|].
  destruct (orderTrackingRule e);
    [cbn [intent confidence]; case_match; cbn; tauto|].
  destruct (orderActionRule e); [cbn; tauto|].
  destruct (userStatusRule e); [cbn; tauto|].
  destruct (menuQueryRule e); [cbn; tauto|].
  destruct (generalFaqRule e); [cbn; tauto|].
  discriminate H.
Qed.

(** C4: the gate is  confidence < 0.4 ; a classification passes it exactly
    on the default branch (no rule fires and there is no prior intent),
    where the answer is GENERAL_QUERY at 0.3; on every other branch the
    confidence is at least 0.5. *)
Theorem C4_fallback_only_on_default :
  (forall c, shouldUseFallback c = true <-> (confidence c < 0.4)%Q) /\
  (forall message state,
     let c := classifyIntent message state in
     (shouldUseFallback c = true <->
      noRuleFires message = true /\ priorIntent state = None) /\
     (shouldUseFallback c = true ->
      c = {| intent := GENERAL_QUERY; confidence := 0.3%Q;
             entities := extractEntities message |}) /\
     (shouldUseFallback c = false -> (0.5 <= confidence c)%Q)).
Proof.
  split; [intros c; apply Qltb_lt|].
  intros message state; cbv zeta.
  destruct (noRuleFires message) eqn:Hno.
  - rewrite (classifyIntent_no_rule _ _ Hno).
    destruct (priorIntent state) as [previous|].
    + change (shouldUseFallback _) with false.
      split; [split; [discriminate | intros [_ H]; discriminate]|].
      split; [discriminate | intros _; discriminate].
    + change (shouldUseFallback _) with true.
      split; [split; [intros _; split; reflexivity | reflexivity]|].
      split; [reflexivity | discriminate].
  - destruct (classifyIntent_rule_fires message state Hno) as [_ Hc].
    cbv zeta in Hc.
    assert (Hge : shouldUseFallback (classifyIntent message state) = false
                  /\ (0.5 <= confidence (classifyIntent message state))%Q).
    { unfold shouldUseFallback.
      cbn in Hc. destruct Hc as [<-|[<-|[<-|[<-|[]]]]]; split;
        solve [reflexivity | discriminate]. }
    destruct Hge as [Hf Hge]. rewrite Hf.
    split; [split; [discriminate | intros [H _]; discriminate]|].
    split; [discriminate | intros _; exact Hge].
Qed.

(** Applied to a message without any keyword, and to the scenario message. *)
Lemma C4_examples :
  shouldUseFallback (classifyIntent "ya, lanjutkan" None) = true /\
  (0.5 <= confidence
            (classifyIntent "saya mau cari dress warna merah ukuran m" None))%Q.
Proof.
  split.
  - apply (proj2 C4_fallback_only_on_default "ya, lanjutkan" None).
    split; vm_compute; reflexivity.
  - apply (proj2 C4_fallback_only_on_default).
    vm_compute; reflexivity.
Defined.

(** C5: a message whose lower-case form contains a greeting phrase and is
    shorter than 20 characters (the length the source tests is that of the
    lower-case form) is classified GREETING at 0.9 with the empty entities
    object, whatever else the text holds and whatever the prior state. *)
Theorem C5_short_greeting (message : string)
    (state : option ConversationState.ConversationState) :
  (exists pattern, In pattern GREETING_PATTERNS /\
                   includes (toLowerCase message) pattern = true) ->
  (String.length (toLowerCase message) < 20)%nat ->
  classifyIntent message state
  = {| intent := GREETING; confidence := 0.9%Q; entities := noEntities |}.
Proof.
  intros Hp Hl. apply classifyIntent_greeting. apply greetingRule_true.
  split; [exact Hp | exact Hl].
Qed.

(** A short greeting that also names a product and a color, sent in a
    session whose current intent is ORDER_TRACKING. *)
Lemma C5_greeting_with_product_words :
  let message := "Halo, dress merah" in
  let state := ConversationState.updateConversationState
                 (ConversationState.createConversationState "s1")
                 {| ConversationState.u_sessionId := None;
                    ConversationState.u_currentIntent := Some (Some ORDER_TRACKING);
                    ConversationState.u_entities := None;
                    ConversationState.u_context := None;
                    ConversationState.u_confidence := None |} in
  productSearchRule (extractEntities message) = true /\
  classifyIntent message (Some state)
  = {| intent := GREETING; confidence := 0.9%Q; entities := noEntities |}.
Proof.
  cbv zeta. split; [vm_compute; reflexivity|].
  apply C5_short_greeting.
  - exists "halo". split; [left; reflexivity | vm_compute; reflexivity].
  - vm_compute. lia.
Defined.

(** C6: when none of the seven rules fires and the prior state has a
    current intent, that intent is returned at confidence 0.5 with the
    entities of the present message, and the gate does not trip.  So it is
    for "ya, lanjutkan" after ORDER_TRACKING. *)
Theorem C6_context_continuation :
  (forall message state previous,
     noRuleFires message = true ->
     ConversationState.currentIntent state = Some previous ->
     classifyIntent message (Some state)
     = {| intent := previous; confidence := 0.5%Q;
          entities := extractEntities message |} /\
     shouldUseFallback (classifyIntent message (Some state)) = false) /\
  (forall state,
     ConversationState.currentIntent state = Some ORDER_TRACKING ->
     noRuleFires "ya, lanjutkan" = true /\
     intent (classifyIntent "ya, lanjutkan" (Some state)) = ORDER_TRACKING /\
     confidence (classifyIntent "ya, lanjutkan" (Some state)) = 0.5%Q /\
     shouldUseFallback (classifyIntent "ya, lanjutkan" (Some state)) = false /\
     (0.4 <= 0.5)%Q).
Proof.
  assert (G : forall message state previous,
     noRuleFires message = true ->
     ConversationState.currentIntent state = Some previous ->
     classifyIntent message (Some state)
     = {| intent := previous; confidence := 0.5%Q;
          entities := extractEntities message |} /\
     shouldUseFallback (classifyIntent message (Some state)) = false).
  { intros message state previous Hno Hprev.
    rewrite (classifyIntent_no_rule _ _ Hno). cbn [priorIntent].
    rewrite Hprev. split; reflexivity. }
  split; [exact G|].
  intros state Hprev.
  assert (Hno : noRuleFires "ya, lanjutkan" = true) by (vm_compute; reflexivity).
  destruct (G _ _ _ Hno Hprev) as [Hc Hf].
  rewrite Hf, Hc. cbn [intent confidence].
  repeat split; discriminate.
Qed.

Lemma C6_ya_lanjutkan_after_order_tracking :
  let state := ConversationState.updateConversationState
                 (ConversationState.createConversationState "s1")
                 {| ConversationState.u_sessionId := None;
                    ConversationState.u_currentIntent := Some (Some ORDER_TRACKING);
                    ConversationState.u_entities := None;
                    ConversationState.u_context := None;
                    ConversationState.u_confidence := None |} in
  classifyIntent "ya, lanjutkan" (Some state)
  = {| intent := ORDER_TRACKING; confidence := 0.5%Q; entities := noEntities |}
  /\ shouldUseFallback (classifyIntent "ya, lanjutkan" (Some state)) = false.
Proof.
  cbv zeta.
  change noEntities with (extractEntities "ya, lanjutkan").
  apply (proj1 C6_context_continuation).
  - vm_compute; reflexivity.
  - reflexivity.
Defined.

(** FALLBACK can only come out of the classifier if it went in. *)
Lemma classifyIntent_not_fallback message state :
  priorIntent state <> Some FALLBACK ->
  intent (classifyIntent message state) <> FALLBACK.
Proof.
  intros Hprior. destruct (noRuleFires message) eqn:Hno.
  - rewrite (classifyIntent_no_rule _ _ Hno).
    destruct (priorIntent state) as [previous|]; cbn [intent];
      [congruence | discriminate].
  - destruct (classifyIntent_rule_fires message state Hno) as [Hi _].
    cbv zeta in Hi. intros Hfb. rewrite Hfb in Hi. cbn in Hi.
    repeat (destruct Hi as [Hi|Hi]; [discriminate|]). exact Hi.
Qed.

(** C10 fails as stated: with a prior state whose current intent is
    FALLBACK and a message on which no rule fires, the classifier returns
    FALLBACK. *)
Lemma C10_fallback_is_returned :
  ~ (forall message state,
       let c := classifyIntent message state in
       In (confidence c) [0.3%Q; 0.5%Q; 0.7%Q; 0.75%Q; 0.85%Q; 0.9%Q] /\
       intent c <> FALLBACK).
Proof.
  intros H.
  pose (state := ConversationState.updateConversationState
                   (ConversationState.createConversationState "s1")
                   {| ConversationState.u_sessionId := None;
                      ConversationState.u_currentIntent := Some (Some FALLBACK);
                      ConversationState.u_entities := None;
                      ConversationState.u_context := None;
                      ConversationState.u_confidence := None |}).
  destruct (H "ya, lanjutkan" (Some state)) as [_ Hne].
  apply Hne. vm_compute. reflexivity.
Qed.

(** C10, amended: the confidence is always one of 0.3, 0.5, 0.7, 0.75, 0.85
    and 0.9, hence between 0.3 and 0.9; the intent is not FALLBACK unless
    the prior state's current intent is FALLBACK. *)
Theorem C10_confidence_set_and_intent (message : string)
    (state : option ConversationState.ConversationState) :
  let c := classifyIntent message state in
  In (confidence c) [0.3%Q; 0.5%Q; 0.7%Q; 0.75%Q; 0.85%Q; 0.9%Q] /\
  (0.3 <= confidence c)%Q /\ (confidence c <= 0.9)%Q /\
  (priorIntent state <> Some FALLBACK -> intent c <> FALLBACK).
Proof.
  cbv zeta.
  assert (Hb : forall q, In q [0.3%Q; 0.5%Q; 0.7%Q; 0.75%Q; 0.85%Q; 0.9%Q] ->
                         (0.3 <= q)%Q /\ (q <= 0.9)%Q).
  { intros q Hq. cbn in Hq.
    destruct Hq as [<-|[<-|[<-|[<-|[<-|[<-|[]]]]]]]; split; discriminate. }
  destruct (noRuleFires message) eqn:Hno.
  - rewrite (classifyIntent_no_rule _ _ Hno).
    destruct (priorIntent state) as [previous|]; cbn [intent confidence].
    + split; [cbn; tauto|].
      split; [discriminate|]. split; [discriminate|]. congruence.
    + split; [cbn; tauto|].
      split; [discriminate|]. split; [discriminate|]. discriminate.
  - destruct (classifyIntent_rule_fires message state Hno) as [_ Hc].
    cbv zeta in Hc.
    assert (Hin : In (confidence (classifyIntent message state))
                    [0.3%Q; 0.5%Q; 0.7%Q; 0.75%Q; 0.85%Q; 0.9%Q])
      by (cbn in Hc |- *; tauto).
    split; [exact Hin|]. destruct (Hb _ Hin) as [Hlo Hhi].
    split; [exact Hlo|]. split; [exact Hhi|].
    apply classifyIntent_not_fallback.
Qed.

Lemma C10_after_no_prior_state :
  intent (classifyIntent "ya, lanjutkan" None) <> FALLBACK.
Proof.
  apply (C10_confidence_set_and_intent "ya, lanjutkan" None).
  discriminate.
Defined.

(** ** The conversation state *)

Import ConversationState ConversationStateManager.

(** C3: the update merges context and entities key by key: a context key
    the partial does not have keeps its value, and so does every entities
    key the partial does not have.  Updating with a context that has only
    lastMessage keeps lastOrderId and lastProductSearch.  The state manager
    stores exactly this merge. *)
Theorem C3_update_keeps_unmentioned_keys :
  (forall state updates,
     let c := match u_context updates with
              | Some c => c | None => noContextUpdate end in
     let e := match u_entities updates with
              | Some e => e | None => ∅ end in
     let state' := updateConversationState state updates in
     (u_lastMessage c = None ->
        lastMessage (context state') = lastMessage (context state)) /\
     (u_lastResponse c = None ->
        lastResponse (context state') = lastResponse (context state)) /\
     (u_previousIntents c = None ->
        previousIntents (context state') = previousIntents (context state)) /\
     (u_turnCount c = None ->
        turnCount (context state') = turnCount (context state)) /\
     (u_lastProductSearch c = None ->
        lastProductSearch (context state') = lastProductSearch (context state)) /\
     (u_lastOrderId c = None ->
        lastOrderId (context state') = lastOrderId (context state)) /\
     (forall key, e !! key = None ->
        ConversationState.entities state' !! key
        = ConversationState.entities state !! key)) /\
  (forall state x,
     let state' :=
       updateConversationState state
         {| u_sessionId := None; u_currentIntent := None; u_entities := None;
            u_confidence := None;
            u_context := Some
              {| u_lastMessage := Some x; u_lastResponse := None;
                 u_previousIntents := None; u_turnCount := None;
                 u_lastProductSearch := None; u_lastOrderId := None |} |} in
     lastMessage (context state') = x /\
     lastOrderId (context state') = lastOrderId (context state) /\
     lastProductSearch (context state') = lastProductSearch (context state)) /\
  (forall sessionId updates (store : gmap string ConversationState) state,
     store !! sessionId = Some state ->
     updateState sessionId updates store
     = (updateConversationState state updates,
        <[sessionId := updateConversationState state updates]> store)).
Proof.
  split; [|split].
  - intros state updates; cbv zeta.
    unfold updateConversationState, spreadContext.
    cbn [context ConversationState.entities lastMessage lastResponse
         previousIntents turnCount lastProductSearch lastOrderId].
    destruct (u_context updates) as [c|];
      (repeat split; [intros H; try rewrite H; reflexivity ..|]);
      intros key Hkey; now apply lookup_union_r.
  - intros state x; cbv zeta. cbn. repeat split.
  - intros sessionId updates store state Hs.
    unfold updateState, getConversationState. rewrite Hs. reflexivity.
Qed.

(** A state that remembers an order and a product search, updated with
    { context: { lastMessage: "x" } }. *)
Lemma C3_last_order_survives :
  let state :=
    {| sessionId := "s1"; currentIntent := Some ORDER_TRACKING;
       ConversationState.entities := {[ "order_id" := VStr "4521" ]};
       ConversationState.confidence := 0.9%Q;
       context := {| lastMessage := "order #4521"; lastResponse := "ok";
                     previousIntents := [ORDER_TRACKING]; turnCount := 1;
                     lastProductSearch := Some "dress";
                     lastOrderId := Some "4521" |} |} in
  let updates :=
    {| u_sessionId := None; u_currentIntent := None; u_entities := None;
       u_confidence := None;
       u_context := Some
         {| u_lastMessage := Some "x"; u_lastResponse := None;
            u_previousIntents := None; u_turnCount := None;
            u_lastProductSearch := None; u_lastOrderId := None |} |} in
  lastOrderId (context (updateConversationState state updates)) = Some "4521" /\
  lastProductSearch (context (updateConversationState state updates))
    = Some "dress" /\
  ConversationState.entities (updateConversationState state updates) !! "order_id"
    = Some (VStr "4521").
Proof.
  cbv zeta.
  split; [|split].
  - refine (proj1 (proj2 (proj2 (proj2 (proj2 (proj2
      (proj1 C3_update_keeps_unmentioned_keys _ _)))))) _). reflexivity.
  - refine (proj1 (proj2 (proj2 (proj2 (proj2
      (proj1 C3_update_keeps_unmentioned_keys _ _))))) _). reflexivity.
  - rewrite (proj2 (proj2 (proj2 (proj2 (proj2 (proj2
      (proj1 C3_update_keeps_unmentioned_keys _ _)))))) "order_id").
    + cbn. apply lookup_singleton_eq.
    + cbn. apply lookup_empty.
Defined.

(** ** The chat handler *)

Import ChatController.

Lemma getConversationState_insert sessionId (store : gmap string ConversationState) :
  getConversationState sessionId store
  = (fst (getConversationState sessionId store),
     <[sessionId := fst (getConversationState sessionId store)]> store).
Proof.
  unfold getConversationState.
  destruct (store !! sessionId) as [s|] eqn:E; [|reflexivity].
  cbn [fst]. now rewrite insert_id.
Qed.

Lemma updateState_insert sessionId updates state
    (store : gmap string ConversationState) :
  updateState sessionId updates (<[sessionId := state]> store)
  = (updateConversationState state updates,
     <[sessionId := updateConversationState state updates]> store).
Proof.
  unfold updateState, getConversationState.
  rewrite lookup_insert_eq, insert_insert_eq. reflexivity.
Qed.

Lemma onStore_getConversationState sessionId
    (store : gmap string ConversationState) log :
  onStore (getConversationState sessionId)
    {| conversationStates := store; calls := log |}
  = (Returned (fst (getConversationState sessionId store)),
     {| conversationStates :=
          <[sessionId := fst (getConversationState sessionId store)]> store;
        calls := log |}).
Proof.
  unfold onStore. cbn [conversationStates calls].
  rewrite getConversationState_insert at 1. reflexivity.
Qed.

Lemma onStore_updateState sessionId updates state
    (store : gmap string ConversationState) log :
  onStore (updateState sessionId updates)
    {| conversationStates := <[sessionId := state]> store; calls := log |}
  = (Returned (updateConversationState state updates),
     {| conversationStates :=
          <[sessionId := updateConversationState state updates]> store;
        calls := log |}).
Proof.
  unfold onStore. cbn [conversationStates calls].
  rewrite updateState_insert. reflexivity.
Qed.

(** The gate trips on the default answer only. *)
Lemma shouldUseFallback_default message state :
  shouldUseFallback (classifyIntent message state) = true ->
  intent (classifyIntent message state) = GENERAL_QUERY.
Proof.
  destruct (noRuleFires message) eqn:Hno.
  - rewrite (classifyIntent_no_rule _ _ Hno).
    destruct (priorIntent state); [discriminate | reflexivity].
  - destruct (classifyIntent_rule_fires message state Hno) as [_ Hc].
    cbv zeta in Hc. unfold shouldUseFallback. cbn in Hc.
    destruct Hc as [<-|[<-|[<-|[<-|[]]]]]; discriminate.
Qed.

Ltac run :=
  repeat first
    [ progress cbn [conversationStates calls fst snd]
    | rewrite onStore_updateState
    | progress unfold bind, tryCatch, await, ret
    | case_match; simplify_eq ].

Section HandlerFacts.

Context {ApiProduct Product ApiOrder Order ApiUser : Type}.
Context (formatExternalProductResponse : list ApiProduct -> string).
Context (formatProductResponse : list Product -> string).
Context (formatExternalOrderResponse : option ApiOrder -> string).
Context (formatOrderResponse : option Order -> string).
Context (formatUserProfile : ApiUser -> string).

Local Abbreviation Env := (Env ApiProduct Product ApiOrder Order ApiUser).
Local Abbreviation dispatch :=
  (dispatch _ _ _ _ _ formatExternalProductResponse formatProductResponse
     formatExternalOrderResponse formatOrderResponse formatUserProfile).
Local Abbreviation handle :=
  (handle _ _ _ _ _ formatExternalProductResponse formatProductResponse
     formatExternalOrderResponse formatOrderResponse formatUserProfile).
Local Abbreviation chat :=
  (chat _ _ _ _ _ formatExternalProductResponse formatProductResponse
     formatExternalOrderResponse formatOrderResponse formatUserProfile).
Local Abbreviation runTurns :=
  (runTurns _ _ _ _ _ formatExternalProductResponse formatProductResponse
     formatExternalOrderResponse formatOrderResponse formatUserProfile).

Lemma dispatch_dispatched (env : Env) sessionId message laravelCookie
    conversationState classification state store log :
  dispatched sessionId message conversationState classification state store
    (dispatch env sessionId message laravelCookie conversationState
       classification
       {| conversationStates := <[sessionId := state]> store; calls := log |}).
Proof.
  unfold dispatched, ChatController.dispatch.
  destruct (intent classification);
    unfold productSearch, orderTracking, greeting, userStatus, getGroqResponse;
    run;
    eexists; (split; [reflexivity|]); (split; [try discriminate; try reflexivity|]);
    eauto.
Qed.

(** One request that reaches the classifier: the handler answers, and the
    session's state has its turn counter raised by one when the answer is a
    response text and unchanged when it is the server error.  Its current
    intent is the one just classified. *)
Lemma handle_turnCount (env : Env) sessionId message laravelCookie store log :
  exists response state' log',
    handle env sessionId message laravelCookie
      {| conversationStates := store; calls := log |}
    = (Returned response,
       {| conversationStates := <[sessionId := state']> store; calls := log' |})
    /\ ((response = ServerError /\
         turnCount (context state')
         = turnCount (context (fst (getConversationState sessionId store))))
        \/ (exists text, response = Json text sessionId /\
            turnCount (context state')
            = turnCount (context (fst (getConversationState sessionId store))) + 1))
    /\ currentIntent state'
       = Some (intent (classifyIntent message
                         (Some (fst (getConversationState sessionId store))))).
Proof.
  unfold ChatController.handle.
  unfold bind at 1. rewrite onStore_getConversationState.
  set (cs := fst (getConversationState sessionId store)).
  set (cl := classifyIntent message (Some cs)). clearbody cl.
  unfold bind at 1. rewrite onStore_updateState.
  match goal with
  | |- context [<[sessionId := ?s]> store] => set (s1 := s)
  end.
  destruct (shouldUseFallback cl).
  - unfold bind at 1. rewrite onStore_updateState. unfold ret.
    eexists _, _, _. split; [reflexivity|].
    split; [right; eexists; split; reflexivity | reflexivity].
  - unfold tryCatch, bind at 1.
    pose proof (dispatch_dispatched env sessionId message laravelCookie cs cl
                  s1 store log) as (s2 & Hst & Hthrew & Hs2).
    destruct (dispatch env sessionId message laravelCookie cs cl _)
      as [[text|] [store2 log2]]; cbn [fst snd conversationStates] in *; subst store2.
    + unfold bind at 1. rewrite onStore_updateState. unfold ret.
      eexists _, _, _. split; [reflexivity|].
      split; [right; eexists; split; reflexivity|].
      destruct Hs2 as [->|(r & x & y & ->)]; reflexivity.
    + rewrite (Hthrew eq_refl). unfold ret.
      eexists _, _, _. split; [reflexivity|].
      split; [left; split; reflexivity | reflexivity].
Qed.



(** The handler never stores FALLBACK as a current intent: what it stores
    is what the classifier answered for a state that had none. *)
Lemma chat_noFallbackStored (env : Env) (req : Request) (w : World) :
  noFallbackStored w -> noFallbackStored (snd (chat env req w)).
Proof.
  intros Hinv. unfold ChatController.chat.
  destruct (truthy (body_message req)) as [message|]; [|exact Hinv].
  set (sid := match truthy (body_sessionId req) with
              | Some s => s | None => uuidv4 _ _ _ _ _ env end).
  destruct w as [store log].
  destruct (handle_turnCount env sid message (cookie_aninka_session req) store log)
    as (response & state' & log' & -> & _ & Hintent).
  cbn [snd]. intros sid0 s0. cbn [conversationStates].
  destruct (decide (sid = sid0)) as [->|Hne].
  - rewrite lookup_insert_eq. intros [= <-]. rewrite Hintent.
    intros [= Hfb]. revert Hfb. apply classifyIntent_not_fallback.
    cbn [priorIntent]. unfold getConversationState.
    destruct (store !! sid0) as [s|] eqn:E; cbn [fst].
    + exact (Hinv sid0 s E).
    + discriminate.
  - rewrite lookup_insert_ne by exact Hne. apply (Hinv sid0 s0).
Qed.

Lemma runTurns_noFallbackStored (turns : list (Env * Request)) :
  noFallbackStored (snd (runTurns turns initialWorld)).
Proof.
  assert (G : forall w, noFallbackStored w ->
                        noFallbackStored (snd (runTurns turns w))).
  { induction turns as [|[env req] rest IH]; intros w Hinv; [exact Hinv|].
    cbn [ChatController.runTurns].
    pose proof (chat_noFallbackStored env req w Hinv) as Hstep.
    destruct (chat env req w) as [response w1]. cbn [snd] in Hstep.
    specialize (IH w1 Hstep).
    destruct (runTurns rest w1) as [responses w2]. exact IH. }
  apply G. intros sid s. cbn. rewrite lookup_empty. discriminate.
Qed.


End HandlerFacts.


(** A product search that falls back to the local search writes the context
    twice in the turn, and the counter is 1 afterwards; a turn whose
    language-model call fails is not counted. *)
Example turnCount_two_updates_one_increment :
  let turns := [ (sampleEnv Threw, request "cari dress" (Some "s1") None);
                 (sampleEnv Threw, request "apa ya" (Some "s1") None) ] in
  fst (sampleRun turns initialWorld)
    = [Json "local products" "s1"; ServerError] /\
  calls (snd (sampleRun turns initialWorld))
    = [SearchProductsExternal "dress" (Some "gamis") None None 1 5 None;
       SearchProducts "dress";
       GroqCompletion "apa ya"
         (newline ++ "Konteks percakapan sebelumnya:" ++
          newline ++ "Pesan terakhir pengguna: " ++ dquote ++ "cari dress" ++ dquote ++
          newline ++ "Respon terakhir Anda: " ++ dquote ++ "local products" ++ dquote)] /\
  turnCountOf (snd (sampleRun turns initialWorld)) "s1" = 1.
Proof. cbv zeta. vm_compute. repeat split. Qed.

(** * Further properties of the entity extractor and the classifier *)

Import Text.

Lemma takeWhile_allChars (p : ascii -> bool) (s : string) :
  allChars p (takeWhile p s) = true.
Proof.
  induction s as [|c r IH]; [reflexivity|].
  cbn [takeWhile]. destruct (p c) eqn:E; [|reflexivity].
  cbn [allChars]. now rewrite E, IH.
Qed.

Lemma matchIdTail_digits (s d : string) :
  matchIdTail s = Some d -> d <> "" /\ allChars isDigit d = true.
Proof.
  unfold matchIdTail. cbv zeta.
  match goal with |- context [takeWhile isDigit ?t] => generalize t end.
  intros t. pose proof (takeWhile_allChars isDigit t) as Hall.
  destruct (takeWhile isDigit t) as [|c r]; [discriminate|].
  intros [= <-]. split; [discriminate | exact Hall].
Qed.

Lemma matchIdAt_digits (triggers : list string) (s d : string) :
  matchIdAt triggers s = Some d -> d <> "" /\ allChars isDigit d = true.
Proof.
  induction triggers as [|w ws IH]; [discriminate|].
  cbn [matchIdAt].
  destruct (matchLiteral w s None) as [[last rest]|]; [|exact IH].
  destruct (matchIdTail rest) as [d'|] eqn:E; [|exact IH].
  intros [= <-]. exact (matchIdTail_digits _ _ E).
Qed.

Lemma matchId_digits (triggers : list string) (s d : string) :
  matchId triggers s = Some d -> d <> "" /\ allChars isDigit d = true.
Proof.
  induction s as [|c r IH]; cbn [matchId].
  - destruct (matchIdAt triggers "") as [d'|] eqn:E; [|discriminate].
    intros [= <-]. exact (matchIdAt_digits _ _ _ E).
  - destruct (matchIdAt triggers (String c r)) as [d'|] eqn:E; [|exact IH].
    intros [= <-]. exact (matchIdAt_digits _ _ _ E).
Qed.

(** Each property of the result is decided by its own step. *)
Lemma extractEntities_order_id (message : string) :
  order_id (extractEntities message)
  = order_id (stepOrderId (toLowerCase message) noEntities).
Proof.
  unfold extractEntities; cbv zeta.
  untouched stepGeneralFaq. untouched stepMenuQuery. untouched stepUserId.
  untouched stepUserStatus. untouched stepSize. untouched stepColor.
  untouched stepOrderAction.
  rewrite stepDefaultCategory_dead. unfold stepOrderId.
  repeat case_match; cbn [order_id set_order_id]; try reflexivity;
    untouched stepOrderKeywords; untouched stepProduct;
    untouched stepCategory; reflexivity.
Qed.

Lemma extractEntities_user_id (message : string) :
  user_id (extractEntities message)
  = user_id (stepUserId (toLowerCase message) noEntities).
Proof.
  unfold extractEntities; cbv zeta.
  untouched stepGeneralFaq. untouched stepMenuQuery.
  rewrite stepDefaultCategory_dead. unfold stepUserId.
  repeat case_match; cbn [user_id set_user_id]; try reflexivity;
    untouched stepUserStatus; untouched stepSize; untouched stepColor;
    untouched stepOrderAction; untouched stepOrderId;
    untouched stepOrderKeywords; untouched stepProduct;
    untouched stepCategory; reflexivity.
Qed.

Lemma extractEntities_order_keywords (message : string) :
  order_keywords (extractEntities message)
  = order_keywords (stepOrderKeywords (toLowerCase message) noEntities).
Proof.
  unfold extractEntities; cbv zeta.
  untouched stepGeneralFaq. untouched stepMenuQuery. untouched stepUserId.
  untouched stepUserStatus. untouched stepSize. untouched stepColor.
  untouched stepOrderAction. untouched stepOrderId.
  rewrite stepDefaultCategory_dead. unfold stepOrderKeywords.
  repeat case_match; cbn [order_keywords set_order_keywords]; try reflexivity;
    untouched stepProduct; untouched stepCategory; reflexivity.
Qed.

Lemma extractEntities_product_keywords (message : string) :
  product_keywords (extractEntities message)
  = product_keywords (stepProduct (toLowerCase message) noEntities).
Proof.
  unfold extractEntities; cbv zeta.
  untouched stepGeneralFaq. untouched stepMenuQuery. untouched stepUserId.
  untouched stepUserStatus. untouched stepSize. untouched stepColor.
  untouched stepOrderAction. untouched stepOrderId.
  untouched stepOrderKeywords.
  rewrite stepDefaultCategory_dead. unfold stepProduct.
  repeat case_match; cbn [product_keywords set_product_keywords set_product_name];
    try reflexivity; untouched stepCategory; reflexivity.
Qed.

Lemma extractEntities_product_name (message : string) :
  product_name (extractEntities message)
  = product_name (stepProduct (toLowerCase message) noEntities).
Proof.
  unfold extractEntities; cbv zeta.
  untouched stepGeneralFaq. untouched stepMenuQuery. untouched stepUserId.
  untouched stepUserStatus. untouched stepSize. untouched stepColor.
  untouched stepOrderAction. untouched stepOrderId.
  untouched stepOrderKeywords.
  rewrite stepDefaultCategory_dead. unfold stepProduct.
  repeat case_match; cbn [product_name set_product_keywords set_product_name];
    try reflexivity; untouched stepCategory; reflexivity.
Qed.

(** X1: an extracted order id or user id is never empty and consists of
    decimal digits only. *)
Theorem X1_extracted_ids_are_digit_strings (message : string) :
  (forall d, order_id (extractEntities message) = Some d ->
             d <> "" /\ allChars isDigit d = true) /\
  (forall d, user_id (extractEntities message) = Some d ->
             d <> "" /\ allChars isDigit d = true).
Proof.
  rewrite extractEntities_order_id, extractEntities_user_id.
  unfold stepOrderId, stepUserId. split; intros d.
  - destruct (matchId ORDER_ID_TRIGGERS _) as [d'|] eqn:E; [|discriminate].
    destruct (negb (d' =? "")%string); [|discriminate].
    intros [= <-]. exact (matchId_digits _ _ _ E).
  - destruct (matchId USER_ID_TRIGGERS _) as [d'|] eqn:E; [|discriminate].
    destruct (negb (d' =? "")%string); [|discriminate].
    intros [= <-]. exact (matchId_digits _ _ _ E).
Qed.

Lemma X1_order_4521 :
  order_id (extractEntities "Lacak pesanan #4521 ya") = Some "4521" /\
  "4521" <> "" /\ allChars isDigit "4521" = true.
Proof.
  assert (E : order_id (extractEntities "Lacak pesanan #4521 ya") = Some "4521")
    by (vm_compute; reflexivity).
  split; [exact E|].
  exact (proj1 (X1_extracted_ids_are_digit_strings "Lacak pesanan #4521 ya")
           "4521" E).
Defined.

(** X2: product_keywords, when present, is the non-empty list of the
    vocabulary entries that occur in the lower-cased text, and product_name
    is its first entry; when absent, no vocabulary entry occurs and there is
    no product_name either. *)
Theorem X2_product_keywords_and_name (message : string) :
  let text := toLowerCase message in
  let entities := extractEntities message in
  match product_keywords entities with
  | Some kws =>
      kws <> [] /\
      product_name entities = List.hd_error kws /\
      forall kw, In kw kws <->
                 In kw PRODUCT_KEYWORDS /\ includes text kw = true
  | None =>
      product_name entities = None /\
      forall kw, In kw PRODUCT_KEYWORDS -> includes text kw = false
  end.
Proof.
  cbv zeta.
  rewrite extractEntities_product_keywords, extractEntities_product_name.
  unfold stepProduct. cbv zeta.
  destruct (List.filter _ PRODUCT_KEYWORDS) as [|first rest] eqn:E.
  - cbn [product_keywords product_name noEntities]. split; [reflexivity|].
    intros kw Hin. destruct (includes _ kw) eqn:Hi; [|reflexivity].
    assert (Hf : In kw (List.filter (fun kw => includes (toLowerCase message) kw)
                          PRODUCT_KEYWORDS))
      by (apply filter_In; split; assumption).
    rewrite E in Hf. destruct Hf.
  - cbn [product_keywords product_name set_product_name set_product_keywords].
    split; [discriminate|]. split; [reflexivity|].
    intros kw. rewrite <- E. apply filter_In.
Qed.

Lemma lowerChar_idempotent (c : ascii) : lowerChar (lowerChar c) = lowerChar c.
Proof. destruct c as [[] [] [] [] [] [] [] []]; vm_compute; reflexivity. Qed.

Lemma toLowerCase_idempotent (s : string) :
  toLowerCase (toLowerCase s) = toLowerCase s.
Proof.
  induction s as [|c r IH]; [reflexivity|].
  cbn [toLowerCase]. now rewrite lowerChar_idempotent, IH.
Qed.

(** X3: extraction and classification do not depend on the case of the
    message: the lower-cased message gives the same entities and, for every
    prior state, the same classification. *)
Theorem X3_case_insensitive (message : string)
    (state : option ConversationState.ConversationState) :
  extractEntities (toLowerCase message) = extractEntities message /\
  classifyIntent (toLowerCase message) state = classifyIntent message state.
Proof.
  assert (E : extractEntities (toLowerCase message) = extractEntities message).
  { unfold extractEntities. now rewrite toLowerCase_idempotent. }
  split; [exact E|].
  unfold classifyIntent. now rewrite E, toLowerCase_idempotent.
Qed.

Lemma filter_hit (text kw : string) (vocabulary : list string) :
  In kw vocabulary -> includes text kw = true ->
  List.filter (fun kw => includes text kw) vocabulary <> [].
Proof.
  intros Hin Hi Hnil.
  assert (Hf : In kw (List.filter (fun kw => includes text kw) vocabulary))
    by (apply filter_In; split; assumption).
  rewrite Hnil in Hf. destruct Hf.
Qed.

Lemma order_action_needs_order_keywords (message : string) :
  order_action (extractEntities message) <> None ->
  order_keywords (extractEntities message) <> None.
Proof.
  rewrite extractEntities_order_action, extractEntities_order_keywords.
  unfold stepOrderAction, stepOrderKeywords. cbv zeta.
  set (text := toLowerCase message).
  assert (Hkw : forall kw, In kw ["cancel"; "batal"; "return"; "pengembalian"; "refund"] ->
                           includes text kw = true ->
                           List.filter (fun kw => includes text kw) ORDER_KEYWORDS <> []).
  { intros kw Hin. apply filter_hit.
    cbn in Hin. unfold ORDER_KEYWORDS.
    repeat (destruct Hin as [<-|Hin]; [cbn; tauto|]). destruct Hin. }
  intros Hact.
  assert (Hne : List.filter (fun kw => includes text kw) ORDER_KEYWORDS <> []).
  { destruct (includes text "cancel") eqn:E1; [apply (Hkw "cancel"); cbn; tauto|].
    destruct (includes text "batal") eqn:E2; [apply (Hkw "batal"); cbn; tauto|].
    destruct (includes text "return") eqn:E3; [apply (Hkw "return"); cbn; tauto|].
    destruct (includes text "pengembalian") eqn:E4;
      [apply (Hkw "pengembalian"); cbn; tauto|].
    destruct (includes text "refund") eqn:E5; [apply (Hkw "refund"); cbn; tauto|].
    cbn in Hact. congruence. }
  destruct (List.filter _ ORDER_KEYWORDS); [congruence | discriminate].
Qed.

(** The fourth rule of the cascade cannot fire: the order-tracking rule
    above it fires whenever an order action was extracted. *)
Lemma classifyIntent_order_action message state :
  intent (classifyIntent message state) = ORDER_ACTION ->
  noRuleFires message = true /\ priorIntent state = Some ORDER_ACTION.
Proof.
  destruct (noRuleFires message) eqn:Hno.
  - rewrite (classifyIntent_no_rule _ _ Hno).
    destruct (priorIntent state) as [previous|]; cbn [intent];
      [intros ->; split; reflexivity | discriminate].
  - pose proof (order_action_needs_order_keywords message) as Hkw.
    unfold classifyIntent, noRuleFires in *. cbv zeta in *.
    destruct (greetingRule _); [discriminate|].
    destruct (productSearchRule _); [discriminate|].
    destruct (orderTrackingRule _) eqn:Htrack; [discriminate|].
    destruct (orderActionRule _) eqn:Hact.
    + exfalso. unfold orderTrackingRule, orderActionRule in *.
      destruct (order_action (extractEntities message)); [|discriminate].
      destruct (order_keywords (extractEntities message)); [discriminate|].
      apply Hkw; [discriminate | reflexivity].
    + destruct (userStatusRule _); [discriminate|].
      destruct (menuQueryRule _); [discriminate|].
      destruct (generalFaqRule _); [discriminate|].
      discriminate Hno.
Qed.

(** X4: every text with an order action also has order keywords, so the
    ORDER_ACTION rule never decides: the classifier returns ORDER_ACTION only
    by context continuation from a prior state whose intent is already
    ORDER_ACTION; a message with an order action is classified by a rule
    above it. *)
Theorem X4_order_action_rule_never_decides (message : string)
    (state : option ConversationState.ConversationState) :
  (order_action (extractEntities message) <> None ->
   order_keywords (extractEntities message) <> None /\
   In (intent (classifyIntent message state))
      [GREETING; PRODUCT_SEARCH; ORDER_TRACKING]) /\
  (intent (classifyIntent message state) = ORDER_ACTION ->
   order_action (extractEntities message) = None /\
   priorIntent state = Some ORDER_ACTION).
Proof.
  split.
  - intros Hact. pose proof (order_action_needs_order_keywords _ Hact) as Hkw.
    split; [exact Hkw|].
    unfold classifyIntent. cbv zeta.
    destruct (greetingRule _); [cbn; tauto|].
    destruct (productSearchRule _); [cbn; tauto|].
    unfold orderTrackingRule.
    destruct (order_keywords (extractEntities message)); [cbn; tauto | congruence].
  - intros Hintent.
    destruct (classifyIntent_order_action _ _ Hintent) as [Hno Hprior].
    split; [|exact Hprior].
    unfold noRuleFires in Hno. cbv zeta in Hno.
    repeat (apply andb_prop in Hno; destruct Hno as [Hno ?]).
    match goal with
    | H : negb (orderActionRule _) = true |- _ =>
        apply negb_true_iff in H; unfold orderActionRule in H;
        destruct (order_action (extractEntities message)); [discriminate|reflexivity]
    end.
Qed.

Lemma X4_cancel_is_order_tracking :
  order_action (extractEntities "tolong batal") = Some cancel /\
  order_keywords (extractEntities "tolong batal") <> None /\
  In (intent (classifyIntent "tolong batal" None))
     [GREETING; PRODUCT_SEARCH; ORDER_TRACKING].
Proof.
  assert (E : order_action (extractEntities "tolong batal") = Some cancel)
    by (vm_compute; reflexivity).
  split; [exact E|].
  apply (proj1 (X4_order_action_rule_never_decides "tolong batal" None)).
  rewrite E. discriminate.
Defined.

(** X5: the category is present exactly when a key of the category table
    occurs in the lower-cased text, whatever else was found, and it is then
    the table's category of the first such key. *)
Theorem X5_category_is_first_table_match (message : string) :
  let text := toLowerCase message in
  category (extractEntities message)
  = option_map snd
      (List.find (fun '(kw, _) => includes text kw) CATEGORY_KEYWORDS) /\
  (category (extractEntities message) = None <->
   forall kw cat, In (kw, cat) CATEGORY_KEYWORDS -> includes text kw = false) /\
  (forall cat, category (extractEntities message) = Some cat ->
     exists kw, In (kw, cat) CATEGORY_KEYWORDS /\ includes text kw = true).
Proof.
  cbv zeta. rewrite extractEntities_category.
  split; [reflexivity|].
  destruct (List.find _ CATEGORY_KEYWORDS) as [[kw cat]|] eqn:E; cbn [option_map snd].
  - apply find_some in E as [Hin Hi]. split.
    + split; [discriminate|]. intros H. rewrite (H _ _ Hin) in Hi. discriminate.
    + intros cat' [= <-]. eauto.
  - split; [|discriminate]. split; [|reflexivity]. intros _ kw cat Hin.
    exact (find_none _ _ E _ Hin).
Qed.

(** X7: the prior state matters only when no rule fires: the entities of
    the answer never depend on it, and when a rule fires the whole answer is
    the one given without a state. *)
Theorem X7_state_only_matters_without_rule (message : string)
    (state : option ConversationState.ConversationState) :
  IntentClassifier.entities (classifyIntent message state)
  = IntentClassifier.entities (classifyIntent message None) /\
  (noRuleFires message = false ->
   classifyIntent message state = classifyIntent message None).
Proof.
  unfold classifyIntent, noRuleFires. cbv zeta.
  destruct (greetingRule _); [split; reflexivity|].
  destruct (productSearchRule _); [split; reflexivity|].
  destruct (orderTrackingRule _); [split; reflexivity|].
  destruct (orderActionRule _); [split; reflexivity|].
  destruct (userStatusRule _); [split; reflexivity|].
  destruct (menuQueryRule _); [split; reflexivity|].
  destruct (generalFaqRule _); [split; reflexivity|].
  destruct (priorIntent state); split; try reflexivity; discriminate.
Qed.

Lemma X7_product_message_ignores_state :
  let state := ConversationState.updateConversationState
                 (ConversationState.createConversationState "s1")
                 {| ConversationState.u_sessionId := None;
                    ConversationState.u_currentIntent := Some (Some ORDER_TRACKING);
                    ConversationState.u_entities := None;
                    ConversationState.u_context := None;
                    ConversationState.u_confidence := None |} in
  classifyIntent "cari dress" (Some state) = classifyIntent "cari dress" None.
Proof.
  cbv zeta. apply X7_state_only_matters_without_rule.
  vm_compute. reflexivity.
Defined.

Lemma extractEntities_size (message : string) :
  size (extractEntities message)
  = size (stepSize (toLowerCase message) noEntities).
Proof.
  unfold extractEntities; cbv zeta.
  untouched stepGeneralFaq. untouched stepMenuQuery. untouched stepUserId.
  untouched stepUserStatus.
  rewrite stepDefaultCategory_dead. unfold stepSize.
  repeat case_match; cbn [size set_size]; try reflexivity;
    untouched stepColor; untouched stepOrderAction; untouched stepOrderId;
    untouched stepOrderKeywords; untouched stepProduct;
    untouched stepCategory; reflexivity.
Qed.

Lemma lowerChar_isWordChar (c : ascii) :
  isWordChar (lowerChar c) = isWordChar c.
Proof. destruct c as [[] [] [] [] [] [] [] []]; vm_compute; reflexivity. Qed.

Lemma toLowerCase_allWordChars (s : string) :
  allChars isWordChar (toLowerCase s) = allChars isWordChar s.
Proof.
  induction s as [|c r IH]; [reflexivity|].
  cbn [toLowerCase allChars]. now rewrite lowerChar_isWordChar, IH.
Qed.

(** A literal matched inside a run of word characters ends on a word
    character, leaves a run of word characters, and consumes its length. *)
Lemma matchLiteral_in_word (kw s : string) prev last rest :
  allChars isWordChar s = true ->
  isWordOpt prev = true \/ kw <> "" ->
  matchLiteral kw s prev = Some (last, rest) ->
  allChars isWordChar rest = true /\ isWordOpt last = true /\
  String.length s = String.length kw + String.length rest.
Proof.
  revert s prev. induction kw as [|p kw IH]; intros s prev Hs Hprev.
  - cbn [matchLiteral]. intros [= <- <-].
    destruct Hprev as [Hprev|Hne]; [|congruence].
    split; [exact Hs|]. split; [exact Hprev | reflexivity].
  - cbn [matchLiteral]. destruct s as [|c r]; [discriminate|].
    cbn [allChars] in Hs. apply andb_prop in Hs as [Hc Hr].
    destruct (canonicalize c =? canonicalize p)%N; [|discriminate].
    intros Hm. destruct (IH r (Some c) Hr (or_introl Hc) Hm) as (H1 & H2 & H3).
    split; [exact H1|]. split; [exact H2|]. cbn [String.length]. lia.
Qed.

(** After a word character, inside a run of word characters, the pattern
    \bkw\b has no match. *)
Lemma testWordFrom_inside_word (kw s : string) (c : ascii) :
  kw <> "" -> isWordChar c = true -> allChars isWordChar s = true ->
  testWordFrom kw (Some c) s = false.
Proof.
  intros Hkw. revert c. induction s as [|d r IH]; intros c Hc Hs.
  - cbn [testWordFrom]. destruct kw; [congruence|].
    cbn. now rewrite andb_false_r.
  - cbn [allChars] in Hs. apply andb_prop in Hs as [Hd Hr].
    cbn [testWordFrom]. rewrite (IH d Hd Hr).
    unfold wordBoundary at 1. cbn [isWordOpt JsString.head]. rewrite Hc, Hd.
    reflexivity.
Qed.

(** In a text that is a single run of word characters, the pattern \bkw\b
    matches only when the literal consumes the whole text. *)
Lemma testWord_whole_word (kw s : string) :
  kw <> "" -> allChars isWordChar s = true -> testWord kw s = true ->
  exists last, matchLiteral kw s None = Some (last, "").
Proof.
  intros Hkw Hs. unfold testWord. destruct s as [|c r].
  - cbn [testWordFrom]. destruct kw; [congruence|]. cbn. discriminate.
  - cbn [testWordFrom].
    pose proof Hs as Hs'. cbn [allChars] in Hs'. apply andb_prop in Hs' as [Hc Hr].
    rewrite (testWordFrom_inside_word kw r c Hkw Hc Hr), orb_false_r.
    destruct (matchLiteral kw (String c r) None) as [[last rest]|] eqn:E;
      [|rewrite andb_false_r; discriminate].
    destruct (matchLiteral_in_word _ _ _ _ _ Hs (or_intror Hkw) E)
      as (Hrest & Hlast & Hlen).
    intros Hb. apply andb_prop in Hb as [_ Hb].
    unfold wordBoundary in Hb. rewrite Hlast in Hb.
    destruct rest as [|d rest'].
    + exists last. reflexivity.
    + cbn [allChars] in Hrest. apply andb_prop in Hrest as [Hd _].
      cbn [JsString.head isWordOpt] in Hb. rewrite Hd in Hb. discriminate.
Qed.

(** Two lower-case code units that the [i] flag identifies are equal: on
    the lower-case code units Canonicalize has an inverse. *)
Lemma canonicalize_lowerChar_inj (c p : ascii) :
  canonicalize (lowerChar c) = canonicalize (lowerChar p) ->
  lowerChar c = lowerChar p.
Proof.
  assert (Hinv : exists back : N -> ascii,
            forall a, back (canonicalize (lowerChar a)) = lowerChar a).
  { exists (fun n =>
              ascii_of_N
                (if inRange 65 90 n then n + 32
                 else if inRange 192 222 n && negb (n =? 215)%N then n + 32
                 else if (n =? 376)%N then 255
                 else if (n =? 924)%N then 181
                 else n)%N).
    intros [[] [] [] [] [] [] [] []]; vm_compute; reflexivity. }
  destruct Hinv as [back Hback].
  intros H. rewrite <- (Hback c), <- (Hback p), H. reflexivity.
Qed.

(** A lower-case literal that consumes the whole of a lower-case text is
    that text. *)
Lemma matchLiteral_lower_whole (kw s : string) prev last :
  matchLiteral (toLowerCase kw) (toLowerCase s) prev = Some (last, "") ->
  toLowerCase kw = toLowerCase s.
Proof.
  revert s prev. induction kw as [|p kw IH]; intros s prev.
  - cbn [toLowerCase matchLiteral]. intros [= _ <-]. reflexivity.
  - destruct s as [|c r]; cbn [toLowerCase matchLiteral]; [discriminate|].
    destruct (canonicalize (lowerChar c) =? canonicalize (lowerChar p))%N eqn:E;
      [|discriminate].
    apply N.eqb_eq in E. apply canonicalize_lowerChar_inj in E.
    intros Hm. rewrite E, (IH r _ Hm). reflexivity.
Qed.

(** The size vocabulary is written in lower case. *)
Lemma SIZE_KEYWORDS_lower (kw : string) :
  In kw SIZE_KEYWORDS -> toLowerCase kw = kw.
Proof.
  assert (H : forallb (fun k => String.eqb (toLowerCase k) k) SIZE_KEYWORDS = true)
    by (vm_compute; reflexivity).
  rewrite forallb_forall in H. intros Hin. now apply String.eqb_eq, H.
Qed.

(** X6: the size pattern matches whole words only.  In a message that is a
    single run of letters, digits and underscores, a size is extracted only
    when the message, in lower case, is itself a size keyword, and that
    keyword is the size; a longer token that merely contains a size keyword
    has no size. *)
Theorem X6_size_matches_whole_words_only (message s : string) :
  allChars isWordChar message = true ->
  size (extractEntities message) = Some s ->
  In s SIZE_KEYWORDS /\ s = toLowerCase message.
Proof.
  intros Hword. rewrite extractEntities_size. unfold stepSize.
  destruct (List.find _ SIZE_KEYWORDS) as [kw|] eqn:E; [|discriminate].
  apply find_some in E as [Hin Htest].
  destruct (kw =? "")%string eqn:Hempty; [discriminate|].
  cbn [negb size set_size]. intros [= <-]. split; [exact Hin|].
  apply String.eqb_neq in Hempty.
  destruct (testWord_whole_word kw (toLowerCase message) Hempty) as [last Hm];
    [now rewrite toLowerCase_allWordChars | exact Htest |].
  rewrite <- (SIZE_KEYWORDS_lower kw Hin) in Hm |- *.
  exact (matchLiteral_lower_whole _ _ _ _ Hm).
Qed.

Lemma X6_xl_and_small :
  (In "xl" SIZE_KEYWORDS /\ "xl" = toLowerCase "XL") /\
  size (extractEntities "small") = None /\
  size (extractEntities "300") = None.
Proof.
  split; [|split; vm_compute; reflexivity].
  apply (X6_size_matches_whole_words_only "XL" "xl");
    vm_compute; reflexivity.
Defined.

(** * Further properties of the conversation state and its manager *)

Lemma updateConversationState_noUpdate (state : ConversationState) :
  updateConversationState state noUpdate = state.
Proof.
  destruct state as [sid intent ents [lm lr pi tc lps loi] conf].
  unfold updateConversationState, spreadContext. cbn.
  f_equal. apply (left_id ∅ (∪)).
Qed.

Lemma spread_twice {A} (old : A) (new : option A) :
  spread (spread old new) new = spread old new.
Proof. destruct new; reflexivity. Qed.

Lemma spreadOpt_twice {A} (old new : option A) :
  spreadOpt (spreadOpt old new) new = spreadOpt old new.
Proof. destruct new; reflexivity. Qed.

(** X8: an update with no key changes nothing, and applying the same
    update a second time changes nothing more. *)
Theorem X8_update_identity_and_idempotence
    (state : ConversationState) (updates : StateUpdate) :
  updateConversationState state noUpdate = state /\
  updateConversationState (updateConversationState state updates) updates
  = updateConversationState state updates.
Proof.
  split; [apply updateConversationState_noUpdate|].
  unfold updateConversationState, spreadContext.
  cbn [sessionId currentIntent ConversationState.entities context
       ConversationState.confidence lastMessage lastResponse previousIntents
       turnCount lastProductSearch lastOrderId].
  rewrite !spread_twice, !spreadOpt_twice.
  f_equal. rewrite (assoc_L (∪)), (idemp_L (∪)). reflexivity.
Qed.

(** X10: addEntityToState sets the named entity, keeps every other entity
    and leaves intent, confidence and context as they were. *)
Theorem X10_addEntityToState (state : ConversationState)
    (entityName : string) (entityValue : EntityValue) :
  let state' := addEntityToState state entityName entityValue in
  ConversationState.entities state' !! entityName = Some entityValue /\
  (forall other, other <> entityName ->
     ConversationState.entities state' !! other
     = ConversationState.entities state !! other) /\
  context state' = context state /\
  currentIntent state' = currentIntent state /\
  ConversationState.confidence state' = ConversationState.confidence state /\
  sessionId state' = sessionId state.
Proof.
  cbv zeta. unfold addEntityToState, updateConversationState, spreadContext.
  cbn [sessionId currentIntent ConversationState.entities context
       ConversationState.confidence u_sessionId u_currentIntent u_entities
       u_context u_confidence spread].
  split; [|split; [|repeat split]].
  - rewrite lookup_union, lookup_singleton_eq.
    destruct (ConversationState.entities state !! entityName); reflexivity.
  - intros other Hother. rewrite lookup_union.
    rewrite lookup_singleton_ne by congruence.
    destruct (ConversationState.entities state !! other); reflexivity.
  - destruct (context state); reflexivity.
Qed.

Lemma X10_add_color :
  let state := addEntityToState (createConversationState "s1") "size" (VStr "m") in
  ConversationState.entities (addEntityToState state "color" (VStr "merah")) !! "size"
  = Some (VStr "m").
Proof.
  cbv zeta.
  rewrite (proj1 (proj2 (X10_addEntityToState
             (addEntityToState (createConversationState "s1") "size" (VStr "m"))
             "color" (VStr "merah"))) "size") by discriminate.
  apply X10_addEntityToState.
Defined.

(** X11: addMessageToState and addIntentToState each raise turnCount by
    one.  The first records message and response and keeps history and
    intent; the second appends the intent to the history, makes it current
    and keeps message and response.  Used together for one turn they count
    it twice. *)
Theorem X11_state_helpers_count_turns (state : ConversationState)
    (message response : string) (intent : Intent) (confidence : Q) :
  let afterMessage := addMessageToState state message response in
  let afterIntent := addIntentToState state intent confidence in
  (turnCount (context afterMessage) = turnCount (context state) + 1 /\
   lastMessage (context afterMessage) = message /\
   lastResponse (context afterMessage) = response /\
   previousIntents (context afterMessage) = previousIntents (context state) /\
   currentIntent afterMessage = currentIntent state /\
   ConversationState.entities afterMessage = ConversationState.entities state) /\
  (turnCount (context afterIntent) = turnCount (context state) + 1 /\
   previousIntents (context afterIntent)
   = (previousIntents (context state) ++ [intent])%list /\
   currentIntent afterIntent = Some intent /\
   ConversationState.confidence afterIntent = confidence /\
   lastMessage (context afterIntent) = lastMessage (context state) /\
   lastResponse (context afterIntent) = lastResponse (context state)) /\
  turnCount (context (addIntentToState afterMessage intent confidence))
  = turnCount (context state) + 2.
Proof.
  cbv zeta.
  unfold addMessageToState, addIntentToState, updateConversationState,
    spreadContext.
  cbn. rewrite (left_id_L ∅ (∪)). repeat split. lia.
Qed.







(** * Further properties of the chat handler *)

Section HandlerProperties.

Context {ApiProduct Product ApiOrder Order ApiUser : Type}.
Context (formatExternalProductResponse : list ApiProduct -> string).
Context (formatProductResponse : list Product -> string).
Context (formatExternalOrderResponse : option ApiOrder -> string).
Context (formatOrderResponse : option Order -> string).
Context (formatUserProfile : ApiUser -> string).

Local Abbreviation Env := (Env ApiProduct Product ApiOrder Order ApiUser).
Local Abbreviation dispatch :=
  (dispatch _ _ _ _ _ formatExternalProductResponse formatProductResponse
     formatExternalOrderResponse formatOrderResponse formatUserProfile).
Local Abbreviation handle :=
  (handle _ _ _ _ _ formatExternalProductResponse formatProductResponse
     formatExternalOrderResponse formatOrderResponse formatUserProfile).
Local Abbreviation chat :=
  (chat _ _ _ _ _ formatExternalProductResponse formatProductResponse
     formatExternalOrderResponse formatOrderResponse formatUserProfile).
Local Abbreviation runTurns :=
  (runTurns _ _ _ _ _ formatExternalProductResponse formatProductResponse
     formatExternalOrderResponse formatOrderResponse formatUserProfile).

(** The update that records the classification *)
Local Abbreviation classified classification :=
  {| u_sessionId := None; u_context := None;
     u_currentIntent := Some (Some (intent classification));
     u_confidence := Some (IntentClassifier.confidence classification);
     u_entities :=
       Some (ownProperties (IntentClassifier.entities classification)) |}.

(** The handler, once the state is read and the classification stored *)
Lemma handle_eq (env : Env) sessionId message laravelCookie store log :
  let cs := fst (getConversationState sessionId store) in
  let cl := classifyIntent message (Some cs) in
  let s1 := updateConversationState cs (classified cl) in
  handle env sessionId message laravelCookie
    {| conversationStates := store; calls := log |}
  = if shouldUseFallback cl then
      (Returned (Json (getFallbackResponse (randomFallback _ _ _ _ _ env)) sessionId),
       {| conversationStates :=
            <[sessionId :=
                updateConversationState s1
                  (turnUpdate cs cl message
                     (getFallbackResponse (randomFallback _ _ _ _ _ env))
                     None None)]> store;
          calls := log |})
    else
      match dispatch env sessionId message laravelCookie cs cl
              {| conversationStates := <[sessionId := s1]> store; calls := log |}
      with
      | (Returned text, w2) =>
          (Returned (Json text sessionId),
           {| conversationStates :=
                snd (updateState sessionId
                       (turnUpdate cs cl message text None None)
                       (conversationStates w2));
              calls := calls w2 |})
      | (Threw, w2) => (Returned ServerError, w2)
      end.
Proof.
  cbv zeta. unfold ChatController.handle.
  unfold bind at 1. rewrite onStore_getConversationState.
  unfold bind at 1. rewrite onStore_updateState.
  destruct (shouldUseFallback _).
  - unfold bind at 1. rewrite onStore_updateState. reflexivity.
  - unfold tryCatch, bind at 1.
    destruct (dispatch _ _ _ _ _ _ _) as [[text|] w2]; [|reflexivity].
    unfold bind, onStore, ret.
    destruct (updateState _ _ _) as [a st]. reflexivity.
Qed.

(** What a dispatched action does to the table and to the log. *)
Lemma dispatch_result (env : Env) sessionId message laravelCookie
    conversationState classification state store log :
  exists outcome state' new,
    dispatch env sessionId message laravelCookie conversationState
      classification
      {| conversationStates := <[sessionId := state]> store; calls := log |}
    = (outcome,
       {| conversationStates := <[sessionId := state']> store;
          calls := (log ++ new)%list |}) /\
    (outcome = Threw -> state' = state) /\
    (state' = state \/
     exists responseText a b,
       state' = updateConversationState state
                  (turnUpdate conversationState classification message
                     responseText a b)) /\
    List.length new <= 3 /\
    ((forall keyword, searchProducts _ _ _ _ _ env keyword <> Threw) ->
     (forall orderId, getOrderById _ _ _ _ _ env orderId <> Threw) ->
     List.length new <= 2 /\
     (outcome = Threw ->
      exists text prompt,
        new = [GroqCompletion text prompt] /\
        groqCompletion _ _ _ _ _ env text prompt = Threw)).
Proof.
  unfold ChatController.dispatch.
  destruct (intent classification);
    unfold productSearch, orderTracking, greeting, userStatus, getGroqResponse;
    run;
    first [ eexists _, _, _; split; [rewrite <- ?app_assoc; reflexivity|]
          | eexists _, _, []; split; [rewrite app_nil_r; reflexivity|] ];
    (split; [try discriminate; try reflexivity|]);
    (split; [eauto|]);
    (split; [cbn; lia|]);
    intros Hproducts Horders;
    try (exfalso; eapply Hproducts; eassumption);
    try (exfalso; eapply Horders; eassumption);
    (split; [cbn; lia|]); try discriminate; eauto.
Qed.

(** The world has no throwing local lookup. *)
Local Abbreviation localLookupsReturn env :=
  ((forall keyword, searchProducts _ _ _ _ _ env keyword <> Threw) /\
   (forall orderId, getOrderById _ _ _ _ _ env orderId <> Threw)).

(** One request that reaches the classifier, in full. *)
Lemma handle_result (env : Env) sessionId message laravelCookie store log :
  let cs := fst (getConversationState sessionId store) in
  let cl := classifyIntent message (Some cs) in
  let s1 := updateConversationState cs (classified cl) in
  exists response state' new,
    handle env sessionId message laravelCookie
      {| conversationStates := store; calls := log |}
    = (Returned response,
       {| conversationStates := <[sessionId := state']> store;
          calls := (log ++ new)%list |}) /\
    List.length new <= 3 /\
    ((response = ServerError /\ state' = s1) \/
     (exists text s2,
        response = Json text sessionId /\
        state' = updateConversationState s2
                   (turnUpdate cs cl message text None None) /\
        (s2 = s1 \/
         exists r a b,
           s2 = updateConversationState s1 (turnUpdate cs cl message r a b)))) /\
    (shouldUseFallback cl = true ->
     new = [] /\
     response = Json (getFallbackResponse (randomFallback _ _ _ _ _ env)) sessionId) /\
    (localLookupsReturn env ->
     List.length new <= 2 /\
     (response = ServerError ->
      exists text prompt,
        new = [GroqCompletion text prompt] /\
        groqCompletion _ _ _ _ _ env text prompt = Threw)).
Proof.
  cbv zeta. rewrite handle_eq. cbv zeta.
  set (cs := fst (getConversationState sessionId store)).
  set (cl := classifyIntent message (Some cs)). clearbody cl.
  set (s1 := updateConversationState cs (classified cl)).
  destruct (shouldUseFallback cl).
  - eexists _, _, []. rewrite app_nil_r. split; [reflexivity|].
    split; [cbn; lia|]. split; [right; eexists _, s1; eauto|].
    split; [auto|]. intros _. split; [cbn; lia | discriminate].
  - destruct (dispatch_result env sessionId message laravelCookie cs cl s1 store log)
      as (outcome & s2 & new & -> & Hthrew & Hs2 & Hlen & Hcalm).
    destruct outcome as [text|]; cbn [conversationStates calls].
    + rewrite updateState_insert. cbn [snd].
      eexists _, _, new. split; [reflexivity|]. split; [exact Hlen|].
      split; [right; eexists text, s2; auto|].
      split; [discriminate|]. intros [Hp Ho].
      destruct (Hcalm Hp Ho) as [Hlen2 _]. split; [exact Hlen2 | discriminate].
    + rewrite (Hthrew eq_refl).
      eexists _, _, new. split; [reflexivity|]. split; [exact Hlen|].
      split; [left; auto|]. split; [discriminate|]. intros [Hp Ho].
      destruct (Hcalm Hp Ho) as [Hlen2 Hgroq]. split; [exact Hlen2|].
      intros _. exact (Hgroq eq_refl).
Qed.

(** The session id of a request *)
Local Abbreviation sessionIdOf env req :=
  (match truthy (body_sessionId req) with
   | Some clientSessionId => clientSessionId
   | None => uuidv4 _ _ _ _ _ env
   end).



(** X16: a request served under a session id on which the table is a finite
    map touches the state of its own session only, and the log of calls only
    grows, by three calls at most. *)
Theorem X16_session_isolation (env : Env) (req : Request) (w : World) :
  PlainObject.plainKey (sessionIdOf env req) ->
  (forall other, other <> sessionIdOf env req ->
     conversationStates (snd (chat env req w)) !! other
     = conversationStates w !! other) /\
  exists new, calls (snd (chat env req w)) = (calls w ++ new)%list /\
              List.length new <= 3.
Proof.
  intros _. unfold ChatController.chat.
  destruct (truthy (body_message req)) as [message|].
  - destruct w as [store log].
    destruct (handle_result env (sessionIdOf env req) message
                (cookie_aninka_session req) store log)
      as (response & state' & new & -> & Hlen & _).
    cbn [fst snd conversationStates calls]. split.
    + intros other Hne. apply lookup_insert_ne. congruence.
    + eauto.
  - cbn [snd]. split; [reflexivity|]. exists []. rewrite app_nil_r.
    split; [reflexivity | cbn; lia].
Qed.

Ltac fields :=
  unfold updateConversationState, turnUpdate, spreadContext, noContextUpdate;
  cbn [sessionId currentIntent ConversationState.entities context
       ConversationState.confidence lastMessage lastResponse previousIntents
       turnCount lastProductSearch lastOrderId spread spreadOpt
       u_sessionId u_currentIntent u_entities u_context u_confidence
       u_lastMessage u_lastResponse u_previousIntents u_turnCount
       u_lastProductSearch u_lastOrderId].


(** A turn keeps the stored states well formed. *)
Lemma chat_allWellFormed (env : Env) (req : Request) (w : World) :
  Sessions.allWellFormed w -> Sessions.allWellFormed (snd (chat env req w)).
Proof.
  intros Hinv. unfold ChatController.chat.
  destruct (truthy (body_message req)) as [message|]; [|exact Hinv].
  destruct w as [store log].
  destruct (handle_result env (sessionIdOf env req) message
              (cookie_aninka_session req) store log)
    as (response & state' & new & -> & _ & Hcases & _).
  cbn [snd]. intros key state. cbn [conversationStates].
  destruct (decide (sessionIdOf env req = key)) as [Heq|Hne];
    [|rewrite lookup_insert_ne by exact Hne; apply Hinv].
  rewrite Heq in *. rewrite lookup_insert_eq. intros [= <-].
  cbv zeta in Hcases.
  set (prior := fst (getConversationState key store)) in *.
  assert (Hprior : sessionId prior = key /\
                   List.length (previousIntents (context prior))
                   = turnCount (context prior) /\
                   currentIntent prior <> Some FALLBACK /\
                   currentIntent prior <> Some ORDER_ACTION).
  { subst prior. unfold getConversationState.
    destruct (store !! key) as [s|] eqn:E; cbn [fst].
    - destruct (Hinv key s E) as (H1 & H2 & i & H3 & H4 & H5).
      rewrite H3. repeat split; congruence.
    - cbn. repeat split; discriminate. }
  destruct Hprior as (Hsid & Hlen & Hfb & Hoa).
  assert (Hintent : intent (classifyIntent message (Some prior)) <> FALLBACK /\
                    intent (classifyIntent message (Some prior)) <> ORDER_ACTION).
  { split.
    - apply classifyIntent_not_fallback. exact Hfb.
    - intros H. apply classifyIntent_order_action in H as [_ H]. exact (Hoa H). }
  set (cl := classifyIntent message (Some prior)) in *. clearbody cl.
  destruct Hcases as [[_ ->]|(text & s2 & _ & -> & [->|(r & a & b & ->)])];
    unfold Sessions.wellFormed; fields;
    (split; [exact Hsid|]);
    (split; [rewrite ?length_app; cbn [List.length]; lia|]);
    exists (intent cl); tauto.
Qed.

(** X19: in every session table the handler builds, starting from the
    empty one, from requests served under session ids on which the table is
    a finite map, each stored state carries its key as session id, has
    exactly one history entry per counted turn, and has a current intent
    that is neither FALLBACK nor ORDER_ACTION. *)
Theorem X19_stored_states_are_well_formed
    (turns : list (Env * Request)) (key : string) (state : ConversationState) :
  Sessions.plainKeys turns ->
  conversationStates (snd (runTurns turns initialWorld)) !! key = Some state ->
  sessionId state = key /\
  List.length (previousIntents (context state)) = turnCount (context state) /\
  exists intent, currentIntent state = Some intent /\
                 intent <> FALLBACK /\ intent <> ORDER_ACTION.
Proof.
  intros _.
  assert (G : forall w, Sessions.allWellFormed w ->
                        Sessions.allWellFormed (snd (runTurns turns w))).
  { induction turns as [|[env req] rest IH]; intros w Hinv; [exact Hinv|].
    cbn [ChatController.runTurns].
    pose proof (chat_allWellFormed env req w Hinv) as Hstep.
    destruct (chat env req w) as [response w1]. cbn [snd] in Hstep.
    specialize (IH w1 Hstep).
    destruct (runTurns rest w1) as [responses w2]. exact IH. }
  apply (G initialWorld).
  intros k s. cbn. rewrite lookup_empty. discriminate.
Qed.




(** X22: no request removes what a stored session remembers: the state
    stays stored under its key with its session id, and an order id, a
    product search or an entity it holds is still held afterwards (the
    writes of the handler merge into the stored state and never delete a
    key). *)
Theorem X22_turn_forgets_nothing
    (env : Env) (req : Request) (w : World)
    (key : string) (state : ConversationState) :
  conversationStates w !! key = Some state ->
  exists state',
    conversationStates (snd (chat env req w)) !! key = Some state' /\
    sessionId state' = sessionId state /\
    (is_Some (lastOrderId (context state)) ->
     is_Some (lastOrderId (context state'))) /\
    (is_Some (lastProductSearch (context state)) ->
     is_Some (lastProductSearch (context state'))) /\
    (forall name, is_Some (ConversationState.entities state !! name) ->
                  is_Some (ConversationState.entities state' !! name)).
Proof.
  intros Hstored.
  assert (Hsame : exists state',
            Some state = Some state' /\
            sessionId state' = sessionId state /\
            (is_Some (lastOrderId (context state)) ->
             is_Some (lastOrderId (context state'))) /\
            (is_Some (lastProductSearch (context state)) ->
             is_Some (lastProductSearch (context state'))) /\
            (forall name, is_Some (ConversationState.entities state !! name) ->
                          is_Some (ConversationState.entities state' !! name))).
  { exists state. repeat split; auto. }
  unfold ChatController.chat.
  destruct (truthy (body_message req)) as [message|];
    [|cbn [snd]; rewrite Hstored; exact Hsame].
  destruct w as [store log]. cbn [conversationStates] in Hstored.
  destruct (handle_result env (sessionIdOf env req) message
              (cookie_aninka_session req) store log)
    as (response & state' & new & -> & _ & Hcases & _).
  cbn [snd conversationStates].
  destruct (decide (sessionIdOf env req = key)) as [Heq|Hne];
    [|rewrite lookup_insert_ne by exact Hne; rewrite Hstored; exact Hsame].
  rewrite Heq in *. rewrite lookup_insert_eq. clear Hsame.
  cbv zeta in Hcases. unfold getConversationState in Hcases.
  rewrite Hstored in Hcases. cbn [fst] in Hcases.
  set (cl := classifyIntent message (Some state)) in *. clearbody cl.
  exists state'. split; [reflexivity|].
  assert (Hents : forall name extra,
            is_Some (ConversationState.entities state !! name) ->
            is_Some ((extra ∪ ConversationState.entities state) !! name)).
  { intros name extra [v Hv]. rewrite lookup_union, Hv.
    destruct (extra !! name); cbn; eauto. }
  destruct Hcases as [[_ ->]|(text & s2 & _ & -> & [->|(r & a & b & ->)])];
    fields; rewrite ?(left_id_L ∅ (∪));
    (split; [reflexivity|]);
    (split; [try destruct b; cbn; eauto|]);
    (split; [try destruct a; cbn; eauto|]);
    intros name; apply Hents.
Qed.

End HandlerProperties.




Lemma X16_other_session_untouched :
  let before :=
    snd (sampleChat (sampleEnv Threw) (request "cari dress" (Some "s1") None)
           initialWorld) in
  let after :=
    snd (sampleChat (sampleEnv Threw) (request "halo" (Some "s2") None) before) in
  conversationStates after !! "s1" = conversationStates before !! "s1".
Proof.
  cbv zeta.
  apply (X16_session_isolation
           (fun _ => "external products") (fun _ => "local products")
           (fun _ => "external order") (fun _ => "local order")
           (fun _ => "profile")); [reflexivity | discriminate].
Defined.

(** * Properties of the local product and order lookups *)

Lemma toLowerCase_empty (s : string) : toLowerCase s = "" <-> s = "".
Proof. destruct s; cbn; split; congruence. Qed.

(** X23: the local product search ignores the case of the keyword, returns
    nothing for the empty keyword, and otherwise returns, in table order,
    exactly the mock products whose lower-cased name, description or
    category contains the lower-cased keyword. *)
Theorem X23_searchProducts (keyword : string) :
  ProductApi.searchProducts (toLowerCase keyword)
  = ProductApi.searchProducts keyword /\
  ProductApi.searchProducts "" = [] /\
  (forall product,
     In product (ProductApi.searchProducts keyword) <->
     keyword <> "" /\ In product ProductApi.mockProducts /\
     (includes (toLowerCase (ProductApi.name product)) (toLowerCase keyword)
      || includes (toLowerCase (ProductApi.description product)) (toLowerCase keyword)
      || includes (toLowerCase (ProductApi.category product)) (toLowerCase keyword))
     = true).
Proof.
  unfold ProductApi.searchProducts. split; [|split; [reflexivity|]].
  - rewrite toLowerCase_idempotent.
    destruct (keyword =? "")%string eqn:E.
    + apply String.eqb_eq in E. subst. reflexivity.
    + apply String.eqb_neq in E.
      destruct (toLowerCase keyword =? "")%string eqn:E'; [|reflexivity].
      apply String.eqb_eq in E'. apply (proj1 (toLowerCase_empty keyword)) in E'. destruct (E E').
  - intros product. destruct (keyword =? "")%string eqn:E.
    + apply String.eqb_eq in E. split; [intros [] | intros [H _]; exact (H E)].
    + apply String.eqb_neq in E. cbv zeta. rewrite filter_In.
      unfold ProductApi.matchesKeyword. tauto.
Qed.

(** X24: the local order lookup ignores the case of the id: two ids with
    the same lower-case form give the same answer, and every mock order is
    found by its id and by its id in lower case. *)
Theorem X24_getOrderById_ignores_case :
  (forall a b, toLowerCase a = toLowerCase b ->
               OrderApi.getOrderById a = OrderApi.getOrderById b) /\
  (forall order, In order OrderApi.mockOrders ->
     OrderApi.getOrderById (OrderApi.id order) = Some order /\
     OrderApi.getOrderById (toLowerCase (OrderApi.id order)) = Some order).
Proof.
  split.
  - intros a b H. unfold OrderApi.getOrderById. now rewrite H.
  - intros order Hin. cbn in Hin.
    repeat (destruct Hin as [<-|Hin]; [split; vm_compute; reflexivity|]).
    destruct Hin.
Qed.

Lemma X24_ord_001 :
  OrderApi.getOrderById "ord-001" = OrderApi.getOrderById "ORD-001" /\
  option_map OrderApi.id (OrderApi.getOrderById "ORD-001") = Some "ORD-001".
Proof.
  split.
  - apply (proj1 X24_getOrderById_ignores_case). vm_compute. reflexivity.
  - vm_compute. reflexivity.
Defined.

Lemma toLowerCase_digits (d : string) :
  allChars isDigit d = true -> toLowerCase d = d.
Proof.
  induction d as [|c r IH]; [reflexivity|].
  cbn [allChars toLowerCase]. intros H. apply andb_prop in H as [Hc Hr].
  rewrite (IH Hr). f_equal.
  revert Hc. destruct c as [[] [] [] [] [] [] [] []]; vm_compute;
    solve [reflexivity | discriminate].
Qed.

Lemma getOrderById_digits (d : string) :
  allChars isDigit d = true -> OrderApi.getOrderById d = None.
Proof.
  intros Hd. unfold OrderApi.getOrderById. rewrite (toLowerCase_digits d Hd).
  destruct d as [|c r]; [reflexivity|].
  cbn [allChars] in Hd. apply andb_prop in Hd as [Hc _].
  assert (Hne : forall rest, (String "o" rest =? String c r)%string = false).
  { intros rest. apply String.eqb_neq. intros [= <- _]. vm_compute in Hc. discriminate Hc. }
  unfold OrderApi.mockOrders. cbn [List.find OrderApi.id].
  change (toLowerCase "ORD-001") with "ord-001".
  change (toLowerCase "ORD-002") with "ord-002".
  change (toLowerCase "ORD-003") with "ord-003".
  now rewrite !Hne.
Qed.

Lemma extracted_order_id_digits (message d : string) :
  order_id (extractEntities message) = Some d ->
  d <> "" /\ allChars isDigit d = true.
Proof.
  rewrite extractEntities_order_id. unfold stepOrderId.
  destruct (matchId ORDER_ID_TRIGGERS _) as [d'|] eqn:E; [|discriminate].
  destruct (negb (d' =? "")%string); [|discriminate].
  intros [= <-]. exact (matchId_digits _ _ _ E).
Qed.

(** X25: the local order lookup finds no order for an id made of digits,
    and an order id extracted from a message is made of digits: whatever
    the message, the local lookup of its order id finds nothing. *)
Theorem X25_local_lookup_never_finds_extracted_id (message d : string) :
  order_id (extractEntities message) = Some d ->
  OrderApi.getOrderById d = None /\
  OrderApi.formatOrderResponse (fun _ => "") (OrderApi.getOrderById d)
  = OrderApi.orderNotFound.
Proof.
  intros H. apply extracted_order_id_digits in H as [_ Hd].
  rewrite (getOrderById_digits d Hd). split; reflexivity.
Qed.

Lemma X25_order_001 :
  order_id (extractEntities "cek order 001") = Some "001" /\
  OrderApi.getOrderById "001" = None.
Proof.
  assert (E : order_id (extractEntities "cek order 001") = Some "001")
    by (vm_compute; reflexivity).
  split; [exact E|].
  exact (proj1 (X25_local_lookup_never_finds_extracted_id _ _ E)).
Defined.

(** * The product and order paths of the handler *)

Lemma classifyIntent_entities message state :
  IntentClassifier.entities (classifyIntent message state) = noEntities \/
  IntentClassifier.entities (classifyIntent message state)
  = extractEntities message.
Proof.
  unfold classifyIntent. cbv zeta.
  destruct (greetingRule _); [left; reflexivity|].
  destruct (productSearchRule _); [right; reflexivity|].
  destruct (orderTrackingRule _); [right; reflexivity|].
  destruct (orderActionRule _); [right; reflexivity|].
  destruct (userStatusRule _); [right; reflexivity|].
  destruct (menuQueryRule _); [right; reflexivity|].
  destruct (generalFaqRule _); [right; reflexivity|].
  destruct (priorIntent state); right; reflexivity.
Qed.

Lemma extracted_product_name (message q : string) :
  product_name (extractEntities message) = Some q ->
  In q PRODUCT_KEYWORDS /\ q <> "".
Proof.
  rewrite extractEntities_product_name. unfold stepProduct. cbv zeta.
  destruct (List.filter _ PRODUCT_KEYWORDS) as [|first rest] eqn:E;
    [discriminate|].
  cbn [product_name set_product_name]. intros [= <-].
  assert (Hin : In first PRODUCT_KEYWORDS).
  { assert (H : In first (first :: rest)) by (left; reflexivity).
    rewrite <- E in H. apply filter_In in H. tauto. }
  split; [exact Hin|].
  assert (Hall : forallb (fun kw => negb (kw =? "")%string) PRODUCT_KEYWORDS = true)
    by (vm_compute; reflexivity).
  rewrite forallb_forall in Hall. specialize (Hall _ Hin).
  intros ->. discriminate Hall.
Qed.

Ltac run_all :=
  repeat first
    [ progress cbn [conversationStates calls fst snd] in *
    | match goal with
      | H : context [onStore (updateState _ _) _] |- _ =>
          rewrite onStore_updateState in H
      end
    | rewrite onStore_updateState
    | progress unfold bind, tryCatch, await, ret
    | case_match; simplify_eq
    | progress simplify_eq ].

Section PathProperties.

Context {ApiProduct Product ApiOrder Order ApiUser : Type}.
Context (formatExternalProductResponse : list ApiProduct -> string).
Context (formatProductResponse : list Product -> string).
Context (formatExternalOrderResponse : option ApiOrder -> string).
Context (formatOrderResponse : option Order -> string).
Context (formatOrderDetails : OrderApi.Order -> string).
Context (formatUserProfile : ApiUser -> string).

Local Abbreviation chat :=
  (chat _ _ _ _ _ formatExternalProductResponse formatProductResponse
     formatExternalOrderResponse formatOrderResponse formatUserProfile).
Local Abbreviation chatLocalOrders :=
  (ChatController.chat _ _ _ _ _ formatExternalProductResponse
     formatProductResponse formatExternalOrderResponse
     (OrderApi.formatOrderResponse formatOrderDetails) formatUserProfile).
Local Abbreviation sessionIdOf env req :=
  (match truthy (body_sessionId req) with
   | Some clientSessionId => clientSessionId
   | None => uuidv4 _ _ _ _ _ env
   end).

(** X26: a product-search turn asks the external product search first,
    with the extracted product name as keyword, the extracted category,
    color and size as filters, page 1 and limit 5.  The keyword is an entry
    of the product vocabulary, and when the turn is answered it is stored as
    lastProductSearch. *)
Theorem X26_product_turn
    (env : Env ApiProduct Product ApiOrder Order ApiUser)
    (req : Request) (w : World) (message q : string) :
  truthy (body_message req) = Some message ->
  let prior :=
    fst (getConversationState (sessionIdOf env req) (conversationStates w)) in
  let cl := classifyIntent message (Some prior) in
  let e := IntentClassifier.entities cl in
  intent cl = PRODUCT_SEARCH ->
  product_name e = Some q ->
  In q PRODUCT_KEYWORDS /\
  (exists rest,
     calls (snd (chat env req w))
     = (calls w ++
        SearchProductsExternal q (category e) (color e) (size e) 1 5
          (cookie_aninka_session req) :: rest)%list) /\
  (forall text sid,
     fst (chat env req w) = Json text sid ->
     exists state,
       conversationStates (snd (chat env req w)) !! sid = Some state /\
       lastProductSearch (context state) = Some q).
Proof.
  intros Hmsg; cbv zeta; intros Hintent Hname.
  assert (Hq : In q PRODUCT_KEYWORDS /\ q <> "").
  { destruct (classifyIntent_entities message
                (Some (fst (getConversationState (sessionIdOf env req)
                              (conversationStates w))))) as [E|E];
      rewrite E in Hname; [discriminate|].
    exact (extracted_product_name _ _ Hname). }
  destruct Hq as [Hin Hne]. split; [exact Hin|].
  apply String.eqb_neq in Hne.
  remember (chat env req w) as result eqn:Hresult. revert Hresult.
  unfold ChatController.chat. rewrite Hmsg.
  destruct w as [store log]. cbn [conversationStates calls] in *.
  rewrite handle_eq. cbv zeta.
  set (prior := fst (getConversationState (sessionIdOf env req) store)) in *.
  assert (Hgate : shouldUseFallback (classifyIntent message (Some prior)) = false).
  { destruct (shouldUseFallback _) eqn:E; [|reflexivity].
    apply shouldUseFallback_default in E. congruence. }
  set (cl := classifyIntent message (Some prior)) in *. clearbody cl.
  rewrite Hgate. unfold ChatController.dispatch. rewrite Hintent.
  unfold productSearch. rewrite Hname. cbv beta iota zeta. repeat (rewrite Hne; cbn [negb]).
  run_all; rewrite ?updateState_insert;
    intros ->; cbn [fst snd conversationStates calls];
    (split; [rewrite <- ?app_assoc; cbn [app]; eexists; reflexivity|]);
    intros text sid; try discriminate; intros [= <- <-];
    (eexists; split; [apply lookup_insert_eq|]); reflexivity.
Qed.


End PathProperties.

Lemma X26_cari_dress :
  exists rest,
    calls (snd (sampleChat (sampleEnv Threw)
                  (request "cari dress" (Some "s1") None) initialWorld))
    = SearchProductsExternal "dress" (Some "gamis") None None 1 5 None :: rest.
Proof.
  exact (proj1 (proj2 (X26_product_turn
           (fun _ => "external products") (fun _ => "local products")
           (fun _ => "external order") (fun _ => "local order")
           (fun _ => "profile")
           (sampleEnv Threw) (request "cari dress" (Some "s1") None)
           initialWorld "cari dress" "dress" eq_refl eq_refl eq_refl))).
Defined.


(** * Examples of the handler properties on the sample world *)


Lemma X19_after_three_turns :
  match conversationStates
          (snd (sampleRun
                  [ (sampleEnv Threw, request "cari dress" (Some "s1") None);
                    (sampleEnv Threw, request "menu" (Some "s1") None);
                    (sampleEnv Threw, request "order 12" (Some "s1") None) ]
                  initialWorld)) !! "s1"
  with
  | Some state =>
      sessionId state = "s1" /\
      List.length (previousIntents (context state)) = turnCount (context state)
  | None => False
  end.
Proof.
  destruct (conversationStates _ !! "s1") as [state|] eqn:E.
  - assert (Hplain : Sessions.plainKeys
              [ (sampleEnv Threw, request "cari dress" (Some "s1") None);
                (sampleEnv Threw, request "menu" (Some "s1") None);
                (sampleEnv Threw, request "order 12" (Some "s1") None) ])
      by (repeat constructor).
    destruct (X19_stored_states_are_well_formed
                (fun _ => "external products") (fun _ => "local products")
                (fun _ => "external order") (fun _ => "local order")
                (fun _ => "profile") _ "s1" state Hplain E) as (H1 & H2 & _).
    split; assumption.
  - vm_compute in E. discriminate E.
Defined.



Lemma X22_known_session_kept :
  let known := addEntityToState (createConversationState "s1")
                 "color" (VStr "merah") in
  let w := {| conversationStates := {[ "s1" := known ]}; calls := [] |} in
  exists state',
    conversationStates
      (snd (sampleChat (sampleEnv Threw) (request "menu" (Some "s1") None) w))
      !! "s1" = Some state' /\
    is_Some (ConversationState.entities state' !! "color").
Proof.
  cbv zeta.
  destruct (X22_turn_forgets_nothing
              (fun _ => "external products") (fun _ => "local products")
              (fun _ => "external order") (fun _ => "local order")
              (fun _ => "profile")
              (sampleEnv Threw) (request "menu" (Some "s1") None)
              {| conversationStates :=
                   {[ "s1" := addEntityToState (createConversationState "s1")
                                "color" (VStr "merah") ]};
                 calls := [] |}
              "s1" (addEntityToState (createConversationState "s1")
                      "color" (VStr "merah"))
              (lookup_singleton_eq _ _))
    as (state' & H1 & _ & _ & _ & H2).
  exists state'. split; [exact H1|]. apply H2.
  unfold addEntityToState, updateConversationState.
  cbn [ConversationState.entities u_entities spread].
  rewrite lookup_union, lookup_singleton_eq. cbn. eauto.
Defined.

(** * Vocabulary order and the language-model call *)

Lemma extractEntities_color (message : string) :
  color (extractEntities message)
  = color (stepColor (toLowerCase message) noEntities).
Proof.
  unfold extractEntities; cbv zeta.
  untouched stepGeneralFaq. untouched stepMenuQuery. untouched stepUserId.
  untouched stepUserStatus. untouched stepSize.
  rewrite stepDefaultCategory_dead. unfold stepColor.
  repeat case_match; cbn [color set_color]; try reflexivity;
    untouched stepOrderAction; untouched stepOrderId;
    untouched stepOrderKeywords; untouched stepProduct;
    untouched stepCategory; reflexivity.
Qed.

Lemma prefix_app_l (a b s : string) :
  String.prefix (a ++ b) s = true -> String.prefix a s = true.
Proof.
  revert s. induction a as [|c a IH]; intros s; [destruct s; reflexivity|].
  destruct s as [|d s]; [discriminate|].
  change (String c a ++ b) with (String c (a ++ b)). cbn [String.prefix].
  destruct (ascii_dec c d); [apply IH | discriminate].
Qed.

Lemma includes_app_l (s a b : string) :
  includes s (a ++ b) = true -> includes s a = true.
Proof.
  induction s as [|c s IH]; cbn [includes]; intros H;
    apply orb_prop in H as [H|H].
  - now rewrite (prefix_app_l _ _ _ H).
  - discriminate.
  - now rewrite (prefix_app_l _ _ _ H).
  - rewrite (IH H). apply orb_true_r.
Qed.

Lemma find_before {A} (f : A -> bool) (l1 : list A) (x : A) (l2 : list A) :
  f x = true ->
  exists y, List.find f (l1 ++ x :: l2)%list = Some y /\ In y (l1 ++ [x])%list.
Proof.
  intros Hx. induction l1 as [|a l1 IH]; cbn [app List.find].
  - rewrite Hx. exists x. split; [reflexivity | left; reflexivity].
  - destruct (f a).
    + exists a. split; [reflexivity | left; reflexivity].
    + destruct IH as (y & Hy & Hin). exists y. split; [exact Hy | right; exact Hin].
Qed.

(** X28: the color is the first entry of the color vocabulary that occurs
    in the lower-cased text.  Since "abu" stands before "abu-abu" and occurs
    wherever "abu-abu" does, the color is never "abu-abu": such a text gets
    "abu" or an entry listed before it. *)
Theorem X28_color_first_entry_wins (message : string) :
  let text := toLowerCase message in
  color (extractEntities message)
  = List.find (fun c => includes text c) COLOR_KEYWORDS /\
  color (extractEntities message) <> Some "abu-abu" /\
  (includes text "abu-abu" = true ->
   exists c, color (extractEntities message) = Some c /\
             In c ["merah"; "biru"; "hijau"; "kuning"; "hitam"; "putih"; "abu"]).
Proof.
  cbv zeta. set (text := toLowerCase message).
  assert (E : color (extractEntities message)
              = List.find (fun c => includes text c) COLOR_KEYWORDS).
  { rewrite extractEntities_color. fold text. unfold stepColor.
    destruct (List.find _ COLOR_KEYWORDS) as [c|] eqn:F; [|reflexivity].
    apply find_some in F as [Hin _].
    assert (Hall : forallb (fun kw => negb (kw =? "")%string) COLOR_KEYWORDS = true)
      by (vm_compute; reflexivity).
    rewrite forallb_forall in Hall. rewrite (Hall _ Hin). reflexivity. }
  split; [exact E|]. rewrite E.
  assert (Habu : includes text "abu-abu" = true -> includes text "abu" = true)
    by (apply (includes_app_l text "abu" "-abu")).
  assert (Hfirst : includes text "abu-abu" = true ->
            exists c, List.find (fun c => includes text c) COLOR_KEYWORDS = Some c /\
                      In c ["merah"; "biru"; "hijau"; "kuning"; "hitam"; "putih"; "abu"]).
  { intros Hb. specialize (Habu Hb).
    destruct (find_before (fun c => includes text c)
                ["merah"; "biru"; "hijau"; "kuning"; "hitam"; "putih"] "abu"
                (List.skipn 7 COLOR_KEYWORDS) Habu) as (c & Hc & Hin).
    exists c. split; [exact Hc | exact Hin]. }
  split; [|exact Hfirst].
  intros F. pose proof F as F'. apply find_some in F' as [_ Hb].
  destruct (Hfirst Hb) as (c & Hc & Hin). rewrite F in Hc.
  injection Hc as <-. cbn in Hin.
  repeat (destruct Hin as [Hin|Hin]; [discriminate|]). destruct Hin.
Qed.

Lemma X28_abu_abu :
  includes (toLowerCase "Gamis abu-abu") "abu-abu" = true /\
  exists c, color (extractEntities "Gamis abu-abu") = Some c /\
            In c ["merah"; "biru"; "hijau"; "kuning"; "hitam"; "putih"; "abu"].
Proof.
  assert (E : includes (toLowerCase "Gamis abu-abu") "abu-abu" = true)
    by (vm_compute; reflexivity).
  split; [exact E|].
  exact (proj2 (proj2 (X28_color_first_entry_wins "Gamis abu-abu")) E).
Defined.

Section LanguageModelCall.

Context {ApiProduct Product ApiOrder Order ApiUser : Type}.
Context (formatExternalProductResponse : list ApiProduct -> string).
Context (formatProductResponse : list Product -> string).
Context (formatExternalOrderResponse : option ApiOrder -> string).
Context (formatOrderResponse : option Order -> string).
Context (formatUserProfile : ApiUser -> string).

Local Abbreviation Env := (Env ApiProduct Product ApiOrder Order ApiUser).
Local Abbreviation dispatch :=
  (dispatch _ _ _ _ _ formatExternalProductResponse formatProductResponse
     formatExternalOrderResponse formatOrderResponse formatUserProfile).
Local Abbreviation chat :=
  (chat _ _ _ _ _ formatExternalProductResponse formatProductResponse
     formatExternalOrderResponse formatOrderResponse formatUserProfile).
Local Abbreviation sessionIdOf env req :=
  (match truthy (body_sessionId req) with
   | Some clientSessionId => clientSessionId
   | None => uuidv4 _ _ _ _ _ env
   end).

(** The context given to the language model for a state *)
Local Abbreviation previousExchange state :=
  (newline ++ "Konteks percakapan sebelumnya:" ++
   newline ++ "Pesan terakhir pengguna: " ++
     dquote ++ lastMessage (context state) ++ dquote ++
   newline ++ "Respon terakhir Anda: " ++
     dquote ++ lastResponse (context state) ++ dquote).

Lemma dispatch_groq (env : Env) sessionId message laravelCookie
    conversationState classification state store log :
  exists outcome state' new,
    dispatch env sessionId message laravelCookie conversationState
      classification
      {| conversationStates := <[sessionId := state]> store; calls := log |}
    = (outcome,
       {| conversationStates := <[sessionId := state']> store;
          calls := (log ++ new)%list |}) /\
    forall text prompt,
      In (GroqCompletion text prompt) new ->
      text = message /\
      prompt = if (0 <? turnCount (context conversationState))%nat
               then previousExchange conversationState else "".
Proof.
  unfold ChatController.dispatch.
  destruct (intent classification);
    unfold productSearch, orderTracking, greeting, userStatus, getGroqResponse;
    run;
    first [ eexists _, _, _; split; [rewrite <- ?app_assoc; reflexivity|]
          | eexists _, _, []; split; [rewrite app_nil_r; reflexivity|] ];
    intros text prompt Hin; cbn in Hin;
    repeat (destruct Hin as [Hin|Hin]; [simplify_eq|]);
    try destruct Hin;
    try match goal with H : (_ <? _)%nat = _ |- _ => rewrite H end;
    split; reflexivity.
Qed.

(** X9: every language-model call of a turn carries the message of the
    request, and as context the previous exchange of the session (its last
    message and last response) exactly when the session already has a
    counted turn; otherwise the context is empty. *)
Theorem X9_language_model_call (env : Env) (req : Request) (w : World)
    (message text prompt : string) (new : list Call) :
  truthy (body_message req) = Some message ->
  calls (snd (chat env req w)) = (calls w ++ new)%list ->
  In (GroqCompletion text prompt) new ->
  let prior :=
    fst (getConversationState (sessionIdOf env req) (conversationStates w)) in
  text = message /\
  (turnCount (context prior) = 0 -> prompt = "") /\
  (0 < turnCount (context prior) -> prompt = previousExchange prior).
Proof.
  intros Hmsg. unfold ChatController.chat. rewrite Hmsg.
  destruct w as [store log]. cbn [conversationStates calls].
  rewrite handle_eq. cbv zeta.
  set (prior := fst (getConversationState (sessionIdOf env req) store)).
  set (cl := classifyIntent message (Some prior)). clearbody cl.
  destruct (shouldUseFallback cl).
  - cbn [snd calls]. intros Hcalls.
    rewrite <- (app_nil_r log) in Hcalls at 1.
    apply app_inv_head in Hcalls. subst new. intros [].
  - match goal with
    | |- context [dispatch env ?sid ?m ?c ?cs ?k {| conversationStates := <[_ := ?s1]> _; calls := _ |}] =>
        destruct (dispatch_groq env sid m c cs k s1 store log)
          as (outcome & s2 & new' & -> & Hgroq)
    end.
    destruct outcome as [t|]; cbn [snd calls];
      intros Hcalls; apply app_inv_head in Hcalls; subst new';
      intros Hin; destruct (Hgroq _ _ Hin) as [-> ->];
      (split; [reflexivity|]);
      (split; [intros H0; rewrite H0; reflexivity|]);
      intros Hpos; apply Nat.ltb_lt in Hpos; rewrite Hpos; reflexivity.
Qed.

End LanguageModelCall.

Lemma X9_first_turn_has_no_context :
  calls (snd (sampleChat (sampleEnv Threw) (request "menu" (Some "s1") None)
                initialWorld))
  = [GroqCompletion "menu" ""].
Proof.
  assert (E : exists prompt,
            calls (snd (sampleChat (sampleEnv Threw)
                          (request "menu" (Some "s1") None) initialWorld))
            = ([] ++ [GroqCompletion "menu" prompt])%list)
    by (eexists; vm_compute; reflexivity).
  destruct E as [prompt E]. rewrite E. cbn [app]. do 2 f_equal.
  refine (proj1 (proj2 (X9_language_model_call
           (fun _ => "external products") (fun _ => "local products")
           (fun _ => "external order") (fun _ => "local order")
           (fun _ => "profile")
           (sampleEnv Threw) (request "menu" (Some "s1") None) initialWorld
           "menu" "menu" prompt [GroqCompletion "menu" prompt]
           eq_refl E (or_introl eq_refl))) eq_refl).
Defined.
